(** * check_samplesheet_vcf: validation and renaming of a samplesheet

    A shallow embedding of [bin/check_samplesheet_vcf.py].

    The rows handled by the script are the dicts that [csv.DictReader]
    yields: finite maps from column names to cell texts.  They are modelled as
    [gmap string string]; the set [_seen] is a [gset string], the [Counter]
    of the renaming pass a [gmap string nat] read with default [0].  Python
    exceptions are values of [exn]; a method of [RowChecker] is a function
    from the object's state to an outcome and the state it leaves behind, so
    that the state at the moment an exception is raised stays observable.

    The csv module itself (sniffing the dialect, splitting lines into cells,
    quoting cells on output) is outside the embedding: a [Sheet] carries
    what the sniffer and the reader hand to the script, and the output file
    is the list of records handed to [csv.writer].  Every cell of a row is
    a text: the [None] that the reader binds to the columns missing from a
    short record, and the key [None] that it adds for a long one, are not
    represented.  A row may lack a column or have a key that is no column;
    the lookups and the writer then raise as they do in Python. *)

From stdpp Require Import base option list strings pretty gmap sets.

Set Warnings "-clear-no-such-hyp".

Local Open Scope string_scope.
Local Open Scope nat_scope.
Local Open Scope list_scope.
Local Open Scope stdpp_scope.

(** ** Python prelude *)

Module Py.

(** The exceptions that the script raises or lets through. [ValueError]
    is the one of [csv.DictWriter], which lists the offending keys;
    [csv_Error] is the sniffer's. *)
Inductive exn : Type :=
| AssertionError (msg : string)
| KeyError (key : string)
| ValueError (wrong_fields : list string)
| csv_Error (msg : string)
| SystemExit (code : Z).

Inductive res (A : Type) : Type :=
| Ok (a : A)
| Raise (e : exn).
Global Arguments Ok {A} a.
Global Arguments Raise {A} e.

(** Computations over a mutable state [S] that may raise. *)
Definition M (S A : Type) : Type := S → res A * S.

Global Instance M_ret {S} : MRet (M S) := λ A a s, (Ok a, s).
Global Instance M_bind {S} : MBind (M S) := λ A B k m s,
  match m s with
  | (Ok a, s') => k a s'
  | (Raise e, s') => (Raise e, s')
  end.
Definition raise {S A} (e : exn) : M S A := λ s, (Raise e, s).
Definition get {S} : M S S := λ s, (Ok s, s).
Definition modify {S} (f : S → S) : M S unit := λ s, (Ok tt, f s).

(** [str.endswith]: the tail of [s] of the length of [suffix] is [suffix]. *)
Definition endswith (s suffix : string) : bool :=
  Nat.leb (String.length suffix) (String.length s) &&
  String.eqb
    (String.substring (String.length s - String.length suffix)
               (String.length suffix) s)
    suffix.

(** [sep.join(l)]. *)
Fixpoint join (sep : string) (l : list string) : string :=
  match l with
  | [] => ""
  | [x] => x
  | x :: l' => x +:+ sep +:+ join sep l'
  end.

(** [str(n)] for a non-negative [int]. *)
Definition str (n : nat) : string := pretty n.

(** [d[key]] on a dict. *)
Definition getitem {S} (d : gmap string string) (key : string) : M S string :=
  match d !! key with
  | Some v => mret v
  | None => raise (KeyError key)
  end.

(** [list.insert(i, x)] for [0 ≤ i]: past the end it appends. *)
Definition list_insert_at {A} (i : nat) (x : A) (l : list A) : list A :=
  take i l ++ x :: drop i l.

End Py.
Import Py.

(** ** class RowChecker *)

Abbreviation Row := (gmap string string).

Record RowChecker : Type := mkRowChecker {
  _sample : string;
  _vcf : string;
  _traits : string;
  _ancestry : string;
  _seen : gset string;
  modified : list Row;
}.

(** [RowChecker()], with the default column names. *)
Definition RowChecker_init : RowChecker :=
  {| _sample := "sample"; _vcf := "vcf"; _traits := "traits";
     _ancestry := "ancestry"; _seen := ∅; modified := [] |}.

Definition seen_add (x : string) (self : RowChecker) : RowChecker :=
  {| _sample := _sample self; _vcf := _vcf self; _traits := _traits self;
     _ancestry := _ancestry self; _seen := {[x]} ∪ _seen self;
     modified := modified self |}.

Definition modified_append (row : Row) (self : RowChecker) : RowChecker :=
  {| _sample := _sample self; _vcf := _vcf self; _traits := _traits self;
     _ancestry := _ancestry self; _seen := _seen self;
     modified := modified self ++ [row] |}.

Definition set_modified (rows : list Row) (self : RowChecker) : RowChecker :=
  {| _sample := _sample self; _vcf := _vcf self; _traits := _traits self;
     _ancestry := _ancestry self; _seen := _seen self;
     modified := rows |}.

Definition vcf_message (v : string) : string :=
  "Unexpected VCF file extension: " +:+ v +:+
  ". The valid VCF extension should be: vcf.gz.".

Definition traits_message (v : string) : string :=
  "Unexpected traits file extension: " +:+ v +:+
  ". The valid VCF extension should be: _traits-json.json.".

Definition ancestry_message (v : string) : string :=
  "Unexpected ancestry file extension: " +:+ v +:+
  ". The valid VCF extension should be: _ancestry-json.json.".

Definition _validate_sample (row : Row) : M RowChecker unit :=
  self ← get;
  v ← getitem row (_vcf self);
  if negb (endswith v ".vcf.gz") then
    raise (AssertionError (vcf_message v))
  else
  t ← getitem row (_traits self);
  if negb (endswith t "_traits-json.json") then
    raise (AssertionError (traits_message t))
  else
  a ← getitem row (_ancestry self);
  if negb (endswith a "_ancestry-json.json") then
    raise (AssertionError (ancestry_message a))
  else mret tt.

Definition validate_and_transform (row : Row) : M RowChecker unit :=
  _validate_sample row;;
  self ← get;
  s ← getitem row (_sample self);
  modify (seen_add s);;
  modify (modified_append row).

(** The loop of [validate_unique_samples]: [rewritten] are the rows already
    rewritten, [seen] is the [Counter].  A row is the dict object held in
    [self.modified], so rewriting its sample cell rewrites the list entry;
    when a lookup raises, the rows before it stay rewritten.  The loop
    gives back the rows and the [Counter] it ends with. *)
Fixpoint rename_loop (sample_col : string) (seen : gmap string nat)
    (rewritten todo : list Row) : res unit * list Row * gmap string nat :=
  match todo with
  | [] => (Ok tt, rewritten, seen)
  | row :: rest =>
      match row !! sample_col with
      | None => (Raise (KeyError sample_col), rewritten ++ todo, seen)
      | Some sample =>
          let n := S (default 0 (seen !! sample)) in
          let seen' := <[sample := n]> seen in
          let row' := <[sample_col := sample +:+ "_T" +:+ str n]> row in
          rename_loop sample_col seen' (rewritten ++ [row']) rest
      end
  end.

Definition unique_message : string :=
  "The pair of sample name and VCF must be unique.".

Definition validate_unique_samples : M RowChecker unit :=
  self ← get;
  if negb (bool_decide (size (_seen self) = length (modified self))) then
    raise (AssertionError unique_message)
  else
    let '(r, rows, _) := rename_loop (_sample self) ∅ [] (modified self) in
    modify (set_modified rows);;
    match r with Ok _ => mret tt | Raise e => raise e end.

(** ** The sheet, the process and the output file *)

(** What the csv module hands to the script for the input file: the two
    answers of [csv.Sniffer] on the first lines (each may raise
    [csv.Error]), then [reader.fieldnames] and the dicts the reader yields. *)
Record Sheet : Type := mkSheet {
  has_header : res bool;
  sniff : res unit;
  fieldnames : list string;
  records : list Row;
}.

(** What the process leaves behind: the messages logged at level CRITICAL
    and the file at the output path ([None]: no such file), as the list of
    records given to the csv writer. *)
Record World : Type := mkWorld {
  log : list string;
  out_file : option (list (list string));
}.

Definition logger_critical (msg : string) : M World unit :=
  modify (λ w, {| log := log w ++ [msg]; out_file := out_file w |}).

Definition sys_exit {A} (code : Z) : M World A := raise (SystemExit code).

Definition of_res {S A} (r : res A) : M S A := λ s, (r, s).

(** [file_out.open(mode="w")] creates the file or empties it. *)
Definition open_w : M World unit :=
  modify (λ w, {| log := log w; out_file := Some [] |}).

Definition writer_writerow (cells : list string) : M World unit :=
  modify (λ w, {| log := log w;
                  out_file := Some (default [] (out_file w) ++ [cells]) |}).

(** [csv.DictWriter._dict_to_list] with the defaults [restval=""] and
    [extrasaction="raise"]. *)
Definition _dict_to_list (fields : list string) (rowdict : Row)
    : res (list string) :=
  let wrong_fields := filter (λ k, k ∉ fields) (elements (dom rowdict)) in
  if decide (wrong_fields = []) then
    Ok ((λ key, default "" (rowdict !! key)) <$> fields)
  else Raise (ValueError wrong_fields).

Definition writerow (fields : list string) (rowdict : Row) : M World unit :=
  cells ← of_res (_dict_to_list fields rowdict);
  writer_writerow cells.

(** [csv.DictWriter.writeheader]: [writerow(dict(zip(fieldnames, fieldnames)))]. *)
Definition writeheader (fields : list string) : M World unit :=
  writerow fields (list_to_map (zip fields fields)).

Fixpoint write_rows (fields : list string) (rows : list Row) : M World unit :=
  match rows with
  | [] => mret tt
  | row :: rest => writerow fields row;; write_rows fields rest
  end.

(** ** sniff_format and check_samplesheet *)

Definition no_header_message : string :=
  "The given sample sheet does not appear to contain a header.".

Definition sniff_format (sh : Sheet) : M World unit :=
  b ← of_res (has_header sh);
  if negb b then
    logger_critical no_header_message;; sys_exit 1
  else of_res (sniff sh).

Definition required_columns : gset string :=
  {[ "sample"; "vcf"; "traits"; "ancestry" ]}.

(** [required_columns.issubset(reader.fieldnames)]. *)
Definition issubset (req : gset string) (names : list string) : bool :=
  bool_decide (req ⊆ list_to_set names).

(** A call of a method on the local object [checker]: the object after the
    call, or the exception that the call raised. *)
Definition call {A} (method : M RowChecker A) (checker : RowChecker)
    : M World RowChecker :=
  λ w, match method checker with
       | (Ok _, checker') => (Ok checker', w)
       | (Raise e, _) => (Raise e, w)
       end.

(** The loop over [enumerate(reader)], from index [i] on. *)
Fixpoint validate_rows (i : nat) (rows : list Row) (checker : RowChecker)
    : M World RowChecker :=
  match rows with
  | [] => mret checker
  | row :: rest =>
      match validate_and_transform row checker with
      | (Ok _, checker') => validate_rows (S i) rest checker'
      | (Raise (AssertionError error), _) =>
          logger_critical (error +:+ " On line " +:+ str (i + 2) +:+ ".");;
          sys_exit 1
      | (Raise e, _) => raise e
      end
  end.

Section check_samplesheet.

(** Two things are fixed by the interpreter and not by the script: the
    order in which the set [required_columns] is iterated, and [repr] of a
    [str].  [repr] of a list is written out. *)
Variable required_order : list string.
Variable repr_str : string → string.

Definition repr_list (l : list string) : string :=
  "[" +:+ join ", " (repr_str <$> l) +:+ "]".

Definition columns_message (names : list string) : string :=
  "The sample sheet **must** contain these column headers: " +:+
  join ", " required_order +:+
  ". It currently contains " +:+ repr_list names.

Definition check_samplesheet (file_in : Sheet) : M World unit :=
  sniff_format file_in;;
  if negb (issubset required_columns (fieldnames file_in)) then
    logger_critical (columns_message (fieldnames file_in));;
    sys_exit 1
  else
    checker ← validate_rows 0 (records file_in) RowChecker_init;
    checker ← call validate_unique_samples checker;
    let header := list_insert_at 1 "single_end" (fieldnames file_in) in
    open_w;;
    writeheader header;;
    write_rows header (modified checker).

End check_samplesheet.

(** The exit status of the process for [sys.exit(main())]: [main] returns
    [None]; an exception that nobody catches ends the interpreter with
    status 1. *)
Definition exit_status {A} (r : res A) : Z :=
  match r with
  | Ok _ => 0
  | Raise (SystemExit code) => code
  | Raise _ => 1
  end.

(** ** Vocabulary of the properties *)

(** A checker with the default column names, which is the only kind that
    [check_samplesheet] builds. *)
Definition checker_of (seen : gset string) (rows : list Row) : RowChecker :=
  mkRowChecker "sample" "vcf" "traits" "ancestry" seen rows.

(** The verdict of [_validate_sample] on a row, read off the code. *)
Definition verdict (row : Row) : res unit :=
  match row !! "vcf" with
  | None => Raise (KeyError "vcf")
  | Some v =>
    if endswith v ".vcf.gz" then
      match row !! "traits" with
      | None => Raise (KeyError "traits")
      | Some t =>
        if endswith t "_traits-json.json" then
          match row !! "ancestry" with
          | None => Raise (KeyError "ancestry")
          | Some a =>
            if endswith a "_ancestry-json.json" then Ok tt
            else Raise (AssertionError (ancestry_message a))
          end
        else Raise (AssertionError (traits_message t))
      end
    else Raise (AssertionError (vcf_message v))
  end.

(** The cell of [row] under [col] exists and ends with [suffix]. *)
Definition ends_in (row : Row) (col suffix : string) : bool :=
  match row !! col with
  | Some v => endswith v suffix
  | None => false
  end.

(** The three suffix conventions. *)
Definition suffixes_ok (row : Row) : bool :=
  ends_in row "vcf" ".vcf.gz" &&
  ends_in row "traits" "_traits-json.json" &&
  ends_in row "ancestry" "_ancestry-json.json".

(** [samples] are the sample cells of [rows], row by row. *)
Definition samples_of (rows : list Row) (samples : list string) : Prop :=
  Forall2 (λ (row : Row) s, row !! "sample" = Some s) rows samples.

(** The row with [suffix] appended to its sample cell [s]. *)
Definition renamed (suffix : string) (row : Row) (s : string) : Row :=
  <["sample" := s +:+ suffix]> row.

(** The record written for [row] under the columns [fields]. *)
Definition cells_of (fields : list string) (row : Row) : list string :=
  (λ key, default "" (row !! key)) <$> fields.

(** Every key of [row] is one of the columns [fields]. *)
Definition keys_in (fields : list string) (row : Row) : Prop :=
  ∀ k, is_Some (row !! k) → k ∈ fields.

(** The header of the output. *)
Definition out_header (sh : Sheet) : list string :=
  list_insert_at 1 "single_end" (fieldnames sh).

(** What [check_samplesheet] does once the header has been accepted. *)
Definition rows_stage (sh : Sheet) : M World unit :=
  checker ← validate_rows 0 (records sh) RowChecker_init;
  checker ← call validate_unique_samples checker;
  let header := list_insert_at 1 "single_end" (fieldnames sh) in
  open_w;;
  writeheader header;;
  write_rows header (modified checker).

(** [part] occurs in [msg]. *)
Definition mentions (msg part : string) : Prop :=
  ∃ pre post, msg = pre +:+ part +:+ post.


(** *** Sample data *)

Definition plain_repr (s : string) : string := "'" +:+ s +:+ "'".

Definition columns : list string := ["sample"; "vcf"; "traits"; "ancestry"].

Definition sample_row (sample vcf : string) : Row :=
  {[ "sample" := sample; "vcf" := vcf;
     "traits" := "S1_traits-json.json";
     "ancestry" := "S1_ancestry-json.json" ]}.

Definition sheet_of (names : list string) (rows : list Row) : Sheet :=
  {| has_header := Ok true; sniff := Ok tt;
     fieldnames := names; records := rows |}.

Definition no_file : World := {| log := []; out_file := None |}.

(** The row of scenario 1, and the same row in a sheet that has a column
    named [single_end] of its own. *)
Definition scenario1_row : Row := sample_row "S1" "S1.vcf.gz".

Definition paired_row : Row := <["single_end" := "yes"]> scenario1_row.

Definition paired_sheet : Sheet :=
  sheet_of (columns ++ ["single_end"]) [paired_row].

Definition old_file : World :=
  {| log := []; out_file := Some [["kept"]] |}.

(** ** The rest of the script: __init__, read_head, sniff_format on a handle, main *)

(** [RowChecker(sample=..., vcf=..., traits=..., ancestry=...)]; any other
    keyword argument is ignored. *)
Definition RowChecker_new (sample vcf traits ancestry : string) : RowChecker :=
  {| _sample := sample; _vcf := vcf; _traits := traits;
     _ancestry := ancestry; _seen := ∅; modified := [] |}.

(** A text file open for reading: its lines, each with its line end, and
    the number of lines that have been read. *)
Record Handle : Type := mkHandle {
  file_lines : list string;
  position : nat;
}.

(** The loop of [read_head] over [enumerate(handle)]: [unread] are the
    lines still in the file, [lines] the list built so far, [pos] the
    position of the handle.  The line at which the loop breaks has been
    taken from the file. *)
Fixpoint read_head_loop (num_lines idx : nat) (unread lines : list string)
    (pos : nat) : list string * nat :=
  match unread with
  | [] => (lines, pos)
  | line :: unread' =>
      if idx =? num_lines then (lines, S pos)
      else read_head_loop num_lines (S idx) unread' (lines ++ [line]) (S pos)
  end.

Definition read_head (num_lines : nat) (handle : Handle) : string * Handle :=
  let '(lines, pos) :=
    read_head_loop num_lines 0
      (drop (position handle) (file_lines handle)) [] (position handle) in
  (join "" lines, {| file_lines := file_lines handle; position := pos |}).

(** [handle.seek(0)]. *)
Definition seek0 (handle : Handle) : Handle :=
  {| file_lines := file_lines handle; position := 0 |}.

(** [csv.Sniffer()]: its two methods, on the text they are given. *)
Record Sniffer : Type := mkSniffer {
  sniffer_has_header : string → res bool;
  sniffer_sniff : string → res unit;
}.

(** [sniff_format(handle)], on the handle and the process. *)
Definition sniff_format_handle (sniffer : Sniffer)
    : M (Handle * World) unit :=
  λ '(handle, w),
    let '(peek, handle) := read_head 10 handle in
    let handle := seek0 handle in
    match sniffer_has_header sniffer peek with
    | Raise e => (Raise e, (handle, w))
    | Ok b =>
        if negb b then
          let '(r, w') := (logger_critical no_header_message;; sys_exit 1) w in
          (r, (handle, w'))
        else (sniffer_sniff sniffer peek, (handle, w))
    end.

(** The levels that [--log-level] accepts, and their numbers in [logging]. *)
Inductive Level : Type := CRITICAL | ERROR | WARNING | INFO | DEBUG.

Definition levelno (l : Level) : nat :=
  match l with
  | CRITICAL => 50 | ERROR => 40 | WARNING => 30 | INFO => 20 | DEBUG => 10
  end.

(** The result of [parse_args]; the paths as [str] prints them. *)
Record Args : Type := mkArgs {
  file_in : string;
  file_out : string;
  log_level : Level;
}.

(** What [main] finds at its two paths: the sheet at [file_in], if that is
    a regular file.  The parent directory of [file_out] can be made. *)
Record Files : Type := mkFiles {
  input : option Sheet;
}.

(** The process of [main]: that of [check_samplesheet], the messages
    emitted at level ERROR, and whether the parent directory of [file_out]
    exists. *)
Record Process : Type := mkProcess {
  world : World;
  errors : list string;
  parent_exists : bool;
}.

(** [logger.error(msg)] under [logging.basicConfig(level=level)]: the
    record is emitted when the level of the logger is not above ERROR. *)
Definition logger_error (level : Level) (msg : string) : M Process unit :=
  modify (λ p,
    if levelno level <=? levelno ERROR then
      {| world := world p; errors := errors p ++ [msg];
         parent_exists := parent_exists p |}
    else p).

(** [args.file_out.parent.mkdir(parents=True, exist_ok=True)]. *)
Definition mkdir_parent : M Process unit :=
  modify (λ p, {| world := world p; errors := errors p;
                  parent_exists := true |}).

(** A computation of [check_samplesheet] inside [main]. *)
Definition in_world {A} (m : M World A) : M Process A :=
  λ p, let '(r, w) := m (world p) in
       (r, {| world := w; errors := errors p;
              parent_exists := parent_exists p |}).

Definition not_found_message (path : string) : string :=
  "The given input file " +:+ path +:+ " was not found!".

Definition main (required_order : list string) (repr_str : string → string)
    (args : Args) (files : Files) : M Process unit :=
  match input files with
  | None =>
      logger_error (log_level args) (not_found_message (file_in args));;
      raise (SystemExit 2)
  | Some sheet =>
      mkdir_parent;;
      in_world (check_samplesheet required_order repr_str sheet)
  end.

(** *** Vocabulary of the further properties *)

(** The checkers that a caller can reach from a new one by calls of
    [validate_and_transform], whether they return or raise. *)
Inductive reachable (init : RowChecker) : RowChecker → Prop :=
| reachable_new : reachable init init
| reachable_call (self : RowChecker) (row : Row) :
    reachable init self →
    reachable init (validate_and_transform row self).2.

(** The three suffix conventions under the column names of [self]. *)
Definition suffixes_ok_for (self : RowChecker) (row : Row) : bool :=
  ends_in row (_vcf self) ".vcf.gz" &&
  ends_in row (_traits self) "_traits-json.json" &&
  ends_in row (_ancestry self) "_ancestry-json.json".

(** The number of times [s] stands in [l]. *)
Definition occurrences (s : string) (l : list string) : nat :=
  length (filter (λ x, x = s) l).

(** The sheet that the sniffer and the reader make of a file. *)
Definition sheet_on (sniffer : Sniffer) (peek : string)
    (names : list string) (rows : list Row) : Sheet :=
  {| has_header := sniffer_has_header sniffer peek;
     sniff := sniffer_sniff sniffer peek;
     fieldnames := names; records := rows |}.

(** ** Strings *)

Lemma substring_all (s : string) : String.substring 0 (String.length s) s = s.
Proof. induction s as [|c s IH]; simpl; [done | by rewrite IH]. Qed.

Lemma substring_skip (p s : string) (m : nat) :
  String.substring (String.length p) m (p +:+ s) = String.substring 0 m s.
Proof.
  induction p as [|c p IH]; simpl; [done |].
  destruct m; apply IH.
Qed.

Lemma substring_split (s : string) (n m : nat) :
  n + m = String.length s →
  s = String.substring 0 n s +:+ String.substring n m s.
Proof.
  revert n m. induction s as [|c s IH]; intros n m Hlen; simpl in Hlen.
  - destruct n, m; simpl in *; done.
  - destruct n as [|n]; simpl.
    + destruct m as [|m]; [done |].
      injection Hlen as ->. simpl. by rewrite substring_all.
    + change (String c s = String c (String.substring 0 n s +:+
                                       String.substring n m s)).
      f_equal. apply IH. lia.
Qed.

Lemma length_append (s t : string) :
  String.length (s +:+ t) = String.length s + String.length t.
Proof. induction s as [|c s IH]; simpl; [done | by rewrite IH]. Qed.

(** [endswith] holds exactly of the strings that are some text followed by
    the suffix. *)
Lemma endswith_spec (s suffix : string) :
  endswith s suffix = true ↔ ∃ p, s = p +:+ suffix.
Proof.
  unfold endswith. rewrite andb_true_iff, Nat.leb_le, String.eqb_eq. split.
  - intros [Hle Hsub].
    exists (String.substring 0 (String.length s - String.length suffix) s).
    pose proof (substring_split s (String.length s - String.length suffix)
                  (String.length suffix)) as Hs.
    rewrite Hsub in Hs. apply Hs. lia.
  - intros [p ->]. rewrite length_append. split; [lia |].
    replace (String.length p + String.length suffix - String.length suffix)
      with (String.length p) by lia.
    rewrite substring_skip. apply substring_all.
Qed.

Lemma append_assoc (a b c : string) : (a +:+ b) +:+ c = a +:+ b +:+ c.
Proof.
  induction a as [|x a IH]; [done|].
  change (String x ((a +:+ b) +:+ c) = String x (a +:+ b +:+ c)).
  by f_equal.
Qed.

Lemma append_empty_r (a : string) : a +:+ "" = a.
Proof.
  induction a as [|x a IH]; [done|].
  change (String x (a +:+ "") = String x a). by f_equal.
Qed.


(** ** The methods of RowChecker *)

Ltac unfold_m :=
  unfold sys_exit, logger_critical, call, getitem in *;
  unfold mbind, M_bind, mret, M_ret, get, raise, modify, of_res in *.

Lemma checker_of_init : RowChecker_init = checker_of ∅ [].
Proof. done. Qed.

Lemma validate_sample_verdict (row : Row) seen rows :
  _validate_sample row (checker_of seen rows)
  = (verdict row, checker_of seen rows).
Proof.
  unfold _validate_sample, verdict. unfold_m. simpl.
  destruct (row !! "vcf") as [v|]; simpl; [|done].
  destruct (endswith v _); simpl; [|done].
  destruct (row !! "traits") as [t|]; simpl; [|done].
  destruct (endswith t _); simpl; [|done].
  destruct (row !! "ancestry") as [a|]; simpl; [|done].
  by destruct (endswith a _).
Qed.

Lemma verdict_ok (row : Row) : verdict row = Ok tt ↔ suffixes_ok row = true.
Proof.
  unfold verdict, suffixes_ok, ends_in.
  destruct (row !! "vcf") as [v|]; [|done].
  destruct (endswith v _); simpl; [|done].
  destruct (row !! "traits") as [t|]; simpl; [|done].
  destruct (endswith t _); simpl; [|done].
  destruct (row !! "ancestry") as [a|]; simpl; [|done].
  by destruct (endswith a _).
Qed.

Lemma validate_and_transform_eq (row : Row) seen rows :
  validate_and_transform row (checker_of seen rows)
  = match verdict row with
    | Ok _ =>
        match row !! "sample" with
        | Some s => (Ok tt, checker_of ({[s]} ∪ seen) (rows ++ [row]))
        | None => (Raise (KeyError "sample"), checker_of seen rows)
        end
    | Raise e => (Raise e, checker_of seen rows)
    end.
Proof.
  unfold validate_and_transform. unfold_m.
  rewrite validate_sample_verdict.
  destruct (verdict row) as [[]|e]; [|done]. simpl.
  by destruct (row !! "sample").
Qed.







(** ** The loop over the rows *)

Lemma samples_of_length rows ss : samples_of rows ss → length rows = length ss.
Proof. apply Forall2_length. Qed.

(** Nothing is written while the rows are validated. *)
Lemma validate_rows_out_file rows : ∀ i checker w r w',
  validate_rows i rows checker w = (r, w') → out_file w' = out_file w.
Proof.
  induction rows as [|row rest IH]; intros i checker w r w' H; simpl in H.
  - unfold_m. by simplify_eq.
  - destruct (validate_and_transform row checker) as [[[]|e] checker'].
    + by eapply IH.
    + destruct e; unfold_m; simpl in H; by simplify_eq.
Qed.

(** Rows that all pass are all recorded, in order. *)
Lemma validate_rows_accept rows : ∀ i ss seen acc w,
  samples_of rows ss →
  Forall (λ row, suffixes_ok row = true) rows →
  validate_rows i rows (checker_of seen acc) w
  = (Ok (checker_of (list_to_set ss ∪ seen) (acc ++ rows)), w).
Proof.
  induction rows as [|row rest IH]; intros i ss seen acc w Hss Hok.
  - apply Forall2_nil_inv_l in Hss as ->. simpl.
    by rewrite app_nil_r, (left_id_L ∅ (∪) seen).
  - apply Forall2_cons_inv_l in Hss as (s & ss' & Hs & Hss' & ->).
    apply Forall_cons in Hok as [Hrow Hrest]. simpl.
    rewrite validate_and_transform_eq.
    apply verdict_ok in Hrow as ->. rewrite Hs.
    rewrite (IH _ ss') by done. rewrite <- app_assoc. simpl.
    do 3 f_equal. set_solver.
Qed.

(** Conversely, when the loop comes to its end every row has passed. *)
Lemma validate_rows_inv rows : ∀ i seen acc w checker w',
  validate_rows i rows (checker_of seen acc) w = (Ok checker, w') →
  w' = w ∧
  Forall (λ row, suffixes_ok row = true) rows ∧
  ∃ ss, samples_of rows ss ∧
        checker = checker_of (list_to_set ss ∪ seen) (acc ++ rows).
Proof.
  induction rows as [|row rest IH]; intros i seen acc w checker w' H.
  - simpl in H. injection H as <- <-. split; [done|]. split; [done|].
    exists []. split; [constructor|]. simpl.
    by rewrite app_nil_r, (left_id_L ∅ (∪) seen).
  - simpl in H. rewrite validate_and_transform_eq in H.
    destruct (verdict row) as [[]|e] eqn:Hv.
    + destruct (row !! "sample") as [s|] eqn:Hs; [|done].
      apply IH in H as (-> & Hok & ss & Hss & ->).
      split; [done|]. split.
      * constructor; [by apply verdict_ok | done].
      * exists (s :: ss). split; [by constructor|].
        rewrite <- app_assoc. simpl. f_equal. set_solver.
    + destruct e; unfold_m; simpl in H; done.
Qed.

(** The first row that fails a suffix check ends the run, and the message
    carries the index of the row plus two. *)
Lemma validate_rows_reject pre : ∀ i ss seen acc w row post msg,
  samples_of pre ss →
  Forall (λ row, suffixes_ok row = true) pre →
  verdict row = Raise (AssertionError msg) →
  validate_rows i (pre ++ row :: post) (checker_of seen acc) w
  = (Raise (SystemExit 1),
     {| log := log w ++ [msg +:+ " On line " +:+ str (i + length pre + 2) +:+ "."];
        out_file := out_file w |}).
Proof.
  induction pre as [|r pre IH]; intros i ss seen acc w row post msg Hss Hok Hv.
  - simpl. rewrite validate_and_transform_eq, Hv. unfold_m. simpl.
    by rewrite Nat.add_0_r.
  - apply Forall2_cons_inv_l in Hss as (s & ss' & Hs & Hss' & ->).
    apply Forall_cons in Hok as [Hrow Hrest]. simpl.
    rewrite validate_and_transform_eq.
    apply verdict_ok in Hrow as ->. rewrite Hs.
    rewrite (IH (S i) ss' _ _ _ row post msg) by done.
    by replace (S i + length pre + 2) with (i + S (length pre) + 2) by lia.
Qed.

(** ** The uniqueness check and the renaming pass *)

Lemma size_list_to_set_le (l : list string) :
  size (list_to_set l : gset string) ≤ length l.
Proof.
  induction l as [|x l IH].
  - by rewrite list_to_set_nil, size_empty.
  - rewrite list_to_set_cons, size_union_alt, size_singleton. cbn [length].
    assert (size ((list_to_set l : gset string) ∖ {[x]})
            ≤ size (list_to_set l : gset string))
      by (apply subseteq_size; set_solver).
    lia.
Qed.

(** As many distinct values as entries: no value occurs twice. *)
Lemma size_list_to_set_NoDup (l : list string) :
  size (list_to_set l : gset string) = length l → NoDup l.
Proof.
  induction l as [|x l IH]; intros Hsize; [constructor|].
  rewrite list_to_set_cons in Hsize. cbn [length] in Hsize.
  destruct (decide (x ∈ l)) as [Hin|Hnin].
  - assert ({[x]} ∪ list_to_set l = (list_to_set l : gset string)) as Heq
      by set_solver.
    rewrite Heq in Hsize. pose proof (size_list_to_set_le l). lia.
  - rewrite size_union, size_singleton in Hsize by set_solver.
    constructor; [done|]. apply IH. lia.
Qed.

Lemma suffix_T1 : "_T" +:+ str 1 = "_T1".
Proof. reflexivity. Qed.

(** On samples that are pairwise distinct and not yet counted, every
    counter goes from nothing to 1 and every row gets the suffix [_T1]. *)
Lemma rename_loop_distinct todo : ∀ ss seen acc,
  samples_of todo ss → NoDup ss → (∀ s, s ∈ ss → seen !! s = None) →
  ∃ counter,
    rename_loop "sample" seen acc todo
    = (Ok tt, acc ++ zip_with (renamed "_T1") todo ss, counter) ∧
    ∀ s, counter !! s = if decide (s ∈ ss) then Some 1 else seen !! s.
Proof.
  induction todo as [|row rest IH]; intros ss seen acc Hss Hnd Hfresh.
  - apply Forall2_nil_inv_l in Hss as ->. exists seen. simpl.
    rewrite app_nil_r. split; [done|]. intros s.
    destruct (decide (s ∈ [])) as [Hin|]; [|done]. by apply elem_of_nil in Hin.
  - apply Forall2_cons_inv_l in Hss as (s & ss' & Hs & Hss' & ->).
    apply NoDup_cons in Hnd as [Hnin Hnd]. simpl. rewrite Hs.
    rewrite (Hfresh s) by left. simpl.
    destruct (IH ss' (<[s:=1]> seen) (acc ++ [<["sample" := s +:+ "_T" +:+ str 1]> row]))
      as (counter & Hrun & Hcounter); [done..| |].
    { intros s' Hs'. rewrite lookup_insert_ne; [apply Hfresh; by right|].
      intros ->. done. }
    exists counter. split.
    + rewrite Hrun, <- app_assoc. by rewrite suffix_T1.
    + intros s'. rewrite Hcounter.
      destruct (decide (s' ∈ ss')) as [Hin|Hnin'].
      * rewrite decide_True; [done | by right].
      * destruct (decide (s' = s)) as [->|Hne].
        -- rewrite decide_True by left. apply lookup_insert_eq.
        -- rewrite lookup_insert_ne by done.
           rewrite decide_False; [done|].
           intros [->|Hin]%elem_of_cons; done.
Qed.

Lemma validate_unique_samples_reject (self : RowChecker) :
  size (_seen self) ≠ length (modified self) →
  validate_unique_samples self
  = (Raise (AssertionError unique_message), self).
Proof.
  intros Hne. unfold validate_unique_samples. unfold_m.
  by rewrite bool_decide_eq_false_2.
Qed.

Lemma validate_unique_samples_accept rows ss :
  samples_of rows ss → NoDup ss →
  validate_unique_samples (checker_of (list_to_set ss) rows)
  = (Ok tt, checker_of (list_to_set ss) (zip_with (renamed "_T1") rows ss)).
Proof.
  intros Hss Hnd. unfold validate_unique_samples. unfold_m. simpl.
  rewrite bool_decide_eq_true_2; simpl.
  - destruct (rename_loop_distinct rows ss ∅ [] Hss Hnd) as (counter & -> & _);
      [intros; apply lookup_empty | done].
  - rewrite size_list_to_set by done. symmetry. by apply samples_of_length.
Qed.

(** When the pass starts on the state that the row loop leaves, the samples
    are pairwise distinct. *)
Lemma validate_unique_samples_inv rows ss r self' :
  samples_of rows ss →
  validate_unique_samples (checker_of (list_to_set ss) rows) = (r, self') →
  r ≠ Raise (AssertionError unique_message) →
  NoDup ss.
Proof.
  intros Hss Hrun Hr.
  destruct (decide (size (list_to_set ss : gset string) = length rows))
    as [Heq|Hne].
  - apply size_list_to_set_NoDup. rewrite Heq. by apply samples_of_length.
  - rewrite validate_unique_samples_reject in Hrun by done. by simplify_eq.
Qed.

(** ** Writing the output *)

Lemma dict_to_list_ok fields (row : Row) :
  keys_in fields row → _dict_to_list fields row = Ok (cells_of fields row).
Proof.
  intros Hkeys. unfold _dict_to_list.
  rewrite decide_True; [done|].
  apply elem_of_nil_inv. intros k [Hk Hin]%list_elem_of_filter.
  apply Hk, Hkeys. by apply elem_of_dom, elem_of_elements.
Qed.

Lemma dict_to_list_inv fields (row : Row) cells :
  _dict_to_list fields row = Ok cells →
  keys_in fields row ∧ cells = cells_of fields row.
Proof.
  unfold _dict_to_list. case_decide as Hnil; [|done].
  intros [= <-]. split; [|done]. intros k Hk.
  destruct (decide (k ∈ fields)) as [|Hnin]; [done|]. exfalso.
  eapply (filter_nil_not_elem_of _ _ k Hnil); [done|].
  by apply elem_of_elements, elem_of_dom.
Qed.

Lemma write_rows_ok fields rows : ∀ lg recs,
  Forall (keys_in fields) rows →
  write_rows fields rows {| log := lg; out_file := Some recs |}
  = (Ok tt, {| log := lg;
               out_file := Some (recs ++ (cells_of fields <$> rows)) |}).
Proof.
  induction rows as [|row rest IH]; intros lg recs Hkeys; simpl.
  - by rewrite app_nil_r.
  - apply Forall_cons in Hkeys as [Hrow Hrest].
    unfold writerow, writer_writerow. unfold_m.
    rewrite dict_to_list_ok by done. simpl.
    rewrite IH by done. by rewrite <- app_assoc.
Qed.

Lemma write_rows_inv fields rows : ∀ w w',
  write_rows fields rows w = (Ok tt, w') → Forall (keys_in fields) rows.
Proof.
  induction rows as [|row rest IH]; intros w w' H; [constructor|].
  simpl in H. unfold writerow, writer_writerow in H. unfold_m.
  destruct (_dict_to_list fields row) as [cells|e] eqn:Hcells; [|done].
  simpl in H. apply dict_to_list_inv in Hcells as [Hkeys _].
  constructor; [done|]. by eapply IH.
Qed.

Lemma lookup_zip_self (l : list string) (k : string) :
  (list_to_map (zip l l) : gmap string string) !! k
  = if decide (k ∈ l) then Some k else None.
Proof.
  induction l as [|x l IH].
  - change (zip [] []) with (@nil (string * string)).
    rewrite list_to_map_nil, lookup_empty.
    by rewrite decide_False by apply not_elem_of_nil.
  - change (zip (x :: l) (x :: l)) with ((x, x) :: zip l l).
    rewrite list_to_map_cons.
    destruct (decide (x = k)) as [->|Hne].
    + rewrite lookup_insert_eq. by rewrite decide_True by left.
    + rewrite lookup_insert_ne, IH by done.
      destruct (decide (k ∈ l)) as [Hin|Hnin].
      * by rewrite decide_True by (by right).
      * rewrite decide_False; [done|]. intros [->|?]%elem_of_cons; done.
Qed.

(** [writeheader] writes the column names themselves. *)
Lemma writeheader_ok fields lg recs :
  writeheader fields {| log := lg; out_file := Some recs |}
  = (Ok tt, {| log := lg; out_file := Some (recs ++ [fields]) |}).
Proof.
  unfold writeheader, writerow, writer_writerow. unfold_m.
  rewrite dict_to_list_ok.
  - simpl. do 5 f_equal. unfold cells_of.
    rewrite <- (list_fmap_id fields) at 2. apply list_fmap_ext.
    intros i k Hk%list_elem_of_lookup_2.
    by rewrite lookup_zip_self, decide_True.
  - intros k [v Hv]. rewrite lookup_zip_self in Hv. by case_decide.
Qed.

(** ** The whole run *)

Lemma samples_of_inj rows ss1 ss2 :
  samples_of rows ss1 → samples_of rows ss2 → ss1 = ss2.
Proof.
  intros H1. revert ss2. induction H1 as [|row s rows ss Hs _ IH]; intros ss2 H2.
  - by apply Forall2_nil_inv_l in H2.
  - apply Forall2_cons_inv_l in H2 as (s' & ss' & Hs' & Hss' & ->).
    f_equal; [congruence | by apply IH].
Qed.

Lemma keys_in_renamed fields suffix (row : Row) s :
  row !! "sample" = Some s →
  keys_in fields (renamed suffix row s) ↔ keys_in fields row.
Proof.
  intros Hs. unfold keys_in, renamed. split; intros H k Hk; apply H.
  - destruct (decide (k = "sample")) as [->|Hne].
    + rewrite lookup_insert_eq. eauto.
    + by rewrite lookup_insert_ne.
  - destruct (decide (k = "sample")) as [->|Hne]; [eauto|].
    by rewrite lookup_insert_ne in Hk.
Qed.

Lemma keys_in_zip_renamed fields suffix rows ss :
  samples_of rows ss →
  Forall (keys_in fields) (zip_with (renamed suffix) rows ss)
  ↔ Forall (keys_in fields) rows.
Proof.
  induction 1 as [|row s rows ss Hs _ IH]; simpl; [done|].
  by rewrite !Forall_cons, IH, keys_in_renamed.
Qed.

Lemma sniff_format_ok sh w :
  has_header sh = Ok true → sniff sh = Ok tt → sniff_format sh w = (Ok tt, w).
Proof. intros Hh Hs. unfold sniff_format. unfold_m. by rewrite Hh, Hs. Qed.

Lemma sniff_format_inv sh w w' :
  sniff_format sh w = (Ok tt, w') →
  has_header sh = Ok true ∧ sniff sh = Ok tt ∧ w' = w.
Proof.
  unfold sniff_format. unfold_m.
  destruct (has_header sh) as [[]|e]; simpl; [|done..].
  destruct (sniff sh) as [[]|e]; [|done]. by intros [= <-].
Qed.

Lemma sniff_format_out_file sh w r w' :
  sniff_format sh w = (r, w') → out_file w' = out_file w.
Proof.
  unfold sniff_format. unfold_m.
  destruct (has_header sh) as [[]|e]; simpl; by intros [= <- <-].
Qed.

Lemma rows_stage_ok sh ss lg file :
  samples_of (records sh) ss →
  Forall (λ row, suffixes_ok row = true) (records sh) →
  NoDup ss →
  Forall (keys_in (out_header sh)) (records sh) →
  rows_stage sh {| log := lg; out_file := file |}
  = (Ok tt,
     {| log := lg;
        out_file := Some (out_header sh ::
                          (cells_of (out_header sh) <$>
                           zip_with (renamed "_T1") (records sh) ss)) |}).
Proof.
  intros Hss Hok Hnd Hkeys. unfold rows_stage.
  unfold mbind at 1, M_bind at 1.
  rewrite checker_of_init, (validate_rows_accept _ _ ss) by done.
  rewrite (right_id_L ∅ (∪)), app_nil_l.
  unfold mbind at 1, M_bind at 1. unfold call.
  rewrite validate_unique_samples_accept by done.
  unfold open_w. unfold_m. cbn [log out_file modified checker_of].
  rewrite writeheader_ok.
  rewrite write_rows_ok; [done|]. by apply keys_in_zip_renamed.
Qed.

Lemma rows_stage_inv sh w w' :
  rows_stage sh w = (Ok tt, w') →
  Forall (λ row, suffixes_ok row = true) (records sh) ∧
  ∃ ss, samples_of (records sh) ss ∧ NoDup ss ∧
        Forall (keys_in (out_header sh)) (records sh) ∧
        w' = {| log := log w;
                out_file := Some (out_header sh ::
                                  (cells_of (out_header sh) <$>
                                   zip_with (renamed "_T1") (records sh) ss)) |}.
Proof.
  intros Hrun. pose proof Hrun as Hrun0. unfold rows_stage in Hrun.
  unfold mbind at 1, M_bind at 1 in Hrun.
  destruct (validate_rows 0 (records sh) RowChecker_init w)
    as [[checker|e] w1] eqn:Hrows; [|done].
  rewrite checker_of_init in Hrows.
  apply validate_rows_inv in Hrows as (-> & Hok & ss & Hss & ->).
  rewrite (right_id_L ∅ (∪)), app_nil_l in Hrun.
  unfold mbind at 1, M_bind at 1 in Hrun. unfold call in Hrun.
  destruct (validate_unique_samples (checker_of (list_to_set ss) (records sh)))
    as [[[]|e] checker'] eqn:Hunique; [|done].
  assert (NoDup ss) as Hnd.
  { eapply validate_unique_samples_inv; [done..|]. done. }
  rewrite validate_unique_samples_accept in Hunique by done.
  injection Hunique as <-.
  split; [done|]. exists ss. split; [done|]. split; [done|].
  unfold open_w in Hrun. unfold_m. cbn [log out_file modified checker_of] in Hrun.
  rewrite writeheader_ok in Hrun.
  destruct (write_rows _ _ _) as [[[]|e] w2] eqn:Hwrite in Hrun; [|done].
  apply write_rows_inv in Hwrite as Hkeys.
  apply keys_in_zip_renamed in Hkeys; [|done].
  split; [done|].
  destruct w as [lg file]. rewrite (rows_stage_ok sh ss) in Hrun0 by done.
  by injection Hrun0 as <-.
Qed.

(** A row with a wrong suffix or a sample that occurs twice: the stage
    raises and the file at the output path is as it was. *)
Lemma rows_stage_invalid sh w :
  Exists (λ row, suffixes_ok row = false) (records sh) ∨
  (∃ ss, samples_of (records sh) ss ∧ ¬ NoDup ss) →
  ∃ e w', rows_stage sh w = (Raise e, w') ∧ out_file w' = out_file w.
Proof.
  intros Hbad. unfold rows_stage. unfold mbind at 1, M_bind at 1.
  destruct (validate_rows 0 (records sh) RowChecker_init w)
    as [[checker|e] w1] eqn:Hrows.
  - rewrite checker_of_init in Hrows.
    apply validate_rows_inv in Hrows as (-> & Hok & ss & Hss & ->).
    rewrite (right_id_L ∅ (∪)), app_nil_l.
    destruct Hbad as [Hex|(ss' & Hss' & Hdup)].
    + apply Exists_exists in Hex as (row & Hin & Hrow).
      rewrite Forall_forall in Hok. apply Hok in Hin. congruence.
    + rewrite (samples_of_inj _ _ _ Hss' Hss) in Hdup.
      unfold mbind at 1, M_bind at 1. unfold call.
      rewrite validate_unique_samples_reject.
      * by eexists _, _.
      * simpl. intros Hsize. apply Hdup, size_list_to_set_NoDup.
        rewrite Hsize. by apply samples_of_length.
  - exists e, w1. split; [done|]. by eapply validate_rows_out_file.
Qed.

Section run.

Context (order : list string) (repr : string → string).

Lemma check_samplesheet_header_ok sh w :
  has_header sh = Ok true → sniff sh = Ok tt →
  issubset required_columns (fieldnames sh) = true →
  check_samplesheet order repr sh w = rows_stage sh w.
Proof.
  intros Hh Hs Hsub. unfold check_samplesheet.
  unfold mbind at 1, M_bind at 1. rewrite sniff_format_ok by done.
  by rewrite Hsub.
Qed.

Lemma check_samplesheet_header_bad sh w :
  has_header sh = Ok true → sniff sh = Ok tt →
  issubset required_columns (fieldnames sh) = false →
  check_samplesheet order repr sh w
  = (Raise (SystemExit 1),
     {| log := log w ++ [columns_message order repr (fieldnames sh)];
        out_file := out_file w |}).
Proof.
  intros Hh Hs Hsub. unfold check_samplesheet.
  unfold mbind at 1, M_bind at 1. rewrite sniff_format_ok by done.
  by rewrite Hsub.
Qed.

Lemma check_samplesheet_sniff_raise sh w e w1 :
  sniff_format sh w = (Raise e, w1) →
  check_samplesheet order repr sh w = (Raise e, w1).
Proof.
  intros Hsniff. unfold check_samplesheet.
  unfold mbind at 1, M_bind at 1. by rewrite Hsniff.
Qed.

Lemma check_samplesheet_inv sh w w' :
  check_samplesheet order repr sh w = (Ok tt, w') →
  has_header sh = Ok true ∧ sniff sh = Ok tt ∧
  issubset required_columns (fieldnames sh) = true ∧
  rows_stage sh w = (Ok tt, w').
Proof.
  intros Hrun. pose proof Hrun as Hrun0. unfold check_samplesheet in Hrun.
  unfold mbind at 1, M_bind at 1 in Hrun.
  destruct (sniff_format sh w) as [[[]|e] w1] eqn:Hsniff; [|done].
  apply sniff_format_inv in Hsniff as (Hh & Hs & ->).
  destruct (issubset required_columns (fieldnames sh)) eqn:Hsub.
  - rewrite check_samplesheet_header_ok in Hrun0 by done. done.
  - simpl in Hrun. unfold_m. done.
Qed.

End run.



(** ** Further lemmas on messages, keys and the two passes *)

Lemma join_mentions (sep : string) (l : list string) (x : string) :
  x ∈ l → mentions (join sep l) x.
Proof.
  induction l as [|y l IH]; intros Hin; [by apply elem_of_nil in Hin|].
  apply elem_of_cons in Hin as [->|Hin].
  - destruct l as [|z l]; simpl.
    + exists "", "". by rewrite append_empty_r.
    + by exists "", (sep +:+ join sep (z :: l)).
  - destruct (IH Hin) as (pre & post & Heq).
    destruct l as [|z l]; [by apply elem_of_nil in Hin|].
    exists (y +:+ sep +:+ pre), post.
    change (join sep (y :: z :: l)) with (y +:+ sep +:+ join sep (z :: l)).
    by rewrite Heq, !append_assoc.
Qed.

Lemma mentions_inside (a b c part : string) :
  mentions b part → mentions (a +:+ b +:+ c) part.
Proof.
  intros (pre & post & ->). exists (a +:+ pre), (post +:+ c).
  by rewrite !append_assoc.
Qed.

Lemma issubset_true (names : list string) :
  issubset required_columns names = true
  ↔ ∀ c, c ∈ columns → c ∈ names.
Proof.
  unfold issubset. rewrite bool_decide_eq_true. unfold required_columns, columns.
  split.
  - intros Hsub c Hc. apply (elem_of_list_to_set (C := gset string)).
    apply Hsub. set_solver.
  - intros Hall c Hc. apply elem_of_list_to_set. apply Hall. set_solver.
Qed.

Lemma elem_of_list_insert_at (k x : string) (i : nat) (l : list string) :
  k ∈ l → k ∈ list_insert_at i x l.
Proof.
  intros Hin. unfold list_insert_at.
  rewrite <- (take_drop i l) in Hin.
  apply elem_of_app in Hin as [Hin|Hin]; apply elem_of_app; [by left|].
  right. by apply elem_of_cons; right.
Qed.

Lemma keys_in_out_header sh (row : Row) :
  keys_in (fieldnames sh) row → keys_in (out_header sh) row.
Proof. intros Hkeys k Hk. by apply elem_of_list_insert_at, Hkeys. Qed.

(** Keys checked by computation. *)
Lemma keys_in_filter fields (row : Row) :
  filter (λ k, k ∉ fields) (elements (dom row)) = [] → keys_in fields row.
Proof.
  intros Hnil k Hk. destruct (decide (k ∈ fields)) as [|Hnin]; [done|].
  exfalso. eapply (filter_nil_not_elem_of _ _ k Hnil); [done|].
  by apply elem_of_elements, elem_of_dom.
Qed.



Lemma cells_of_lookup fields (row : Row) j k :
  fields !! j = Some k →
  cells_of fields row !! j = Some (default "" (row !! k)).
Proof. intros Hj. unfold cells_of. by rewrite list_lookup_fmap, Hj. Qed.

Lemma length_cells_of fields (row : Row) :
  length (cells_of fields row) = length fields.
Proof. apply length_fmap. Qed.

(** * The claims *)

(** C1. The code at two rows that pass the suffix checks and share the
    sample [S1] with different vcf cells: the comparison of the number of
    distinct samples (one) with the number of rows (two) fails, the
    AssertionError of [validate_unique_samples] ends the run with exit
    status 1, and nothing is written; no [S1_T1], [S1_T2] comes out. *)
Theorem C1_two_runs_rejected (order : list string) (repr : string → string)
    (w : World) :
  let run1 := sample_row "S1" "S1_run1.vcf.gz" in
  let run2 := sample_row "S1" "S1_run2.vcf.gz" in
  let sh := sheet_of columns [run1; run2] in
  suffixes_ok run1 = true ∧ suffixes_ok run2 = true ∧
  run1 !! "sample" = run2 !! "sample" ∧ run1 !! "vcf" ≠ run2 !! "vcf" ∧
  check_samplesheet order repr sh w
  = (Raise (AssertionError unique_message), w) ∧
  exit_status (check_samplesheet order repr sh w).1 = 1%Z.
Proof.
  intros run1 run2 sh.
  assert (check_samplesheet order repr sh w
          = (Raise (AssertionError unique_message), w)) as ->.
  { rewrite check_samplesheet_header_ok by done.
    unfold rows_stage. unfold mbind at 1, M_bind at 1.
    rewrite checker_of_init.
    rewrite (validate_rows_accept _ 0 ["S1"; "S1"]);
      [|by repeat constructor..].
    unfold mbind at 1, M_bind at 1. unfold call.
    rewrite validate_unique_samples_reject; [done|].
    vm_compute. lia. }
  repeat split; done.
Qed.




(** C3. The renaming pass starts with the comparison of the number of
    distinct sample values seen with the number of accepted rows.  When the
    two differ, [validate_unique_samples] raises its AssertionError and leaves
    the checker, hence every row's sample cell, as it was; a call that
    changes any row is therefore one where the two numbers agree.  In
    [check_samplesheet] nothing catches that exception: the run ends with it,
    with exit status 1 and without a write to the output path. *)
Theorem C3_uniqueness_precondition (self : RowChecker) :
  (size (_seen self) ≠ length (modified self) →
   validate_unique_samples self
   = (Raise (AssertionError unique_message), self)) ∧
  (∀ r self',
     validate_unique_samples self = (r, self') →
     modified self' ≠ modified self →
     size (_seen self) = length (modified self)) ∧
  (∀ order repr sh w,
     has_header sh = Ok true → sniff sh = Ok tt →
     issubset required_columns (fieldnames sh) = true →
     validate_rows 0 (records sh) RowChecker_init w = (Ok self, w) →
     size (_seen self) ≠ length (modified self) →
     check_samplesheet order repr sh w
     = (Raise (AssertionError unique_message), w) ∧
     exit_status (check_samplesheet order repr sh w).1 = 1%Z).
Proof.
  split; [apply validate_unique_samples_reject|]. split.
  - intros r self' Hrun Hchanged.
    destruct (decide (size (_seen self) = length (modified self)))
      as [|Hne]; [done|].
    rewrite validate_unique_samples_reject in Hrun by done.
    by simplify_eq.
  - intros order repr sh w Hh Hs Hsub Hrows Hne.
    assert (check_samplesheet order repr sh w
            = (Raise (AssertionError unique_message), w)) as ->; [|done].
    rewrite check_samplesheet_header_ok by done.
    unfold rows_stage. unfold mbind at 1, M_bind at 1. rewrite Hrows.
    unfold mbind at 1, M_bind at 1. unfold call.
    by rewrite validate_unique_samples_reject.
Qed.

Lemma C3_witness :
  validate_unique_samples
    (checker_of {["S1"]} [sample_row "S1" "a.vcf.gz"; sample_row "S1" "b.vcf.gz"])
  = (Raise (AssertionError unique_message),
     checker_of {["S1"]} [sample_row "S1" "a.vcf.gz"; sample_row "S1" "b.vcf.gz"]) ∧
  check_samplesheet columns plain_repr
    (sheet_of columns [sample_row "S1" "a.vcf.gz"; sample_row "S1" "b.vcf.gz"])
    old_file
  = (Raise (AssertionError unique_message), old_file).
Proof.
  destruct (C3_uniqueness_precondition
              (checker_of {["S1"]} [sample_row "S1" "a.vcf.gz";
                                    sample_row "S1" "b.vcf.gz"]))
    as (Hraise & _ & Hrun).
  split.
  - apply Hraise. vm_compute. lia.
  - apply (Hrun columns plain_repr
             (sheet_of columns [sample_row "S1" "a.vcf.gz";
                                sample_row "S1" "b.vcf.gz"])
             old_file); try reflexivity.
    vm_compute. lia.
Defined.



(** C5, as stated, fails on a sheet that has a column named [single_end]
    of its own: the cell written at index 1 is that column's cell, not the
    empty text. *)
Lemma C5_counterexample :
  check_samplesheet columns plain_repr paired_sheet no_file
  = (Ok tt,
     {| log := [];
        out_file :=
          Some [["sample"; "single_end"; "vcf"; "traits"; "ancestry";
                 "single_end"];
                ["S1_T1"; "yes"; "S1.vcf.gz"; "S1_traits-json.json";
                 "S1_ancestry-json.json"; "yes"]] |}) ∧
  ["S1_T1"; "yes"; "S1.vcf.gz"; "S1_traits-json.json";
   "S1_ancestry-json.json"; "yes"] !! 1 ≠ Some "".
Proof. split; [vm_compute; reflexivity | discriminate]. Qed.

(** C5, amended. For every input on which the run ends normally: the
    output file holds the header and one record per input row, in order;
    the header is the input header with [single_end] inserted at index 1,
    so every record has one cell more than the input has columns; the
    record of a row is the row itself with [_T1] appended to its sample,
    every other cell of the row standing under its own column; and the cell
    at index 1 is empty for every row that has no cell of its own under a
    column named [single_end]. *)
Theorem C5_output_shape (order : list string) (repr : string → string)
    (sh : Sheet) (w w' : World) :
  check_samplesheet order repr sh w = (Ok tt, w') →
  ∃ ss lines,
    samples_of (records sh) ss ∧
    out_file w' = Some (out_header sh :: lines) ∧
    length lines = length (records sh) ∧
    (∃ first rest,
       fieldnames sh = first :: rest ∧
       out_header sh = first :: "single_end" :: rest) ∧
    length (out_header sh) = S (length (fieldnames sh)) ∧
    Forall (λ line, length line = S (length (fieldnames sh))) lines ∧
    ∀ i row s line,
      records sh !! i = Some row → ss !! i = Some s →
      lines !! i = Some line →
      line = cells_of (out_header sh) (<["sample" := s +:+ "_T1"]> row) ∧
      (∀ k v, row !! k = Some v → k ≠ "sample" →
         ∃ j, out_header sh !! j = Some k ∧ line !! j = Some v) ∧
      (∃ j, out_header sh !! j = Some "sample" ∧
            line !! j = Some (s +:+ "_T1")) ∧
      (row !! "single_end" = None → line !! 1 = Some "").
Proof.
  intros (Hh & Hs & Hsub & Hrun)%check_samplesheet_inv.
  apply rows_stage_inv in Hrun as (Hok & ss & Hss & Hnd & Hkeys & ->).
  assert (∃ first rest, fieldnames sh = first :: rest) as (first & rest & Hnames).
  { assert ("sample" ∈ fieldnames sh) as Hin.
    { apply issubset_true; [done|]. unfold columns. apply elem_of_cons. by left. }
    destruct (fieldnames sh) as [|first rest]; [by apply elem_of_nil in Hin|].
    eauto. }
  assert (out_header sh = first :: "single_end" :: rest) as Hheader.
  { unfold out_header, list_insert_at. by rewrite Hnames. }
  assert (length (out_header sh) = S (length (fieldnames sh))) as Hlen.
  { by rewrite Hheader, Hnames. }
  exists ss, (cells_of (out_header sh) <$> zip_with (renamed "_T1") (records sh) ss).
  split; [done|]. split; [done|]. split.
  { rewrite length_fmap, length_zip_with_l_eq; [done|].
    by apply samples_of_length. }
  split; [by exists first, rest|]. split; [done|]. split.
  { apply Forall_fmap, Forall_forall. intros row _. simpl.
    by rewrite length_cells_of. }
  intros i row s line Hrow Hsample Hline.
  rewrite list_lookup_fmap, lookup_zip_with, Hrow in Hline. simpl in Hline.
  rewrite Hsample in Hline. simpl in Hline. injection Hline as <-.
  unfold renamed. split; [done|].
  assert (keys_in (out_header sh) row) as Hkeys_row.
  { rewrite Forall_forall in Hkeys. by eapply Hkeys, list_elem_of_lookup_2. }
  split; [|split].
  - intros k v Hk Hne.
    assert (k ∈ out_header sh) as Hin by (apply Hkeys_row; eauto).
    apply list_elem_of_lookup_1 in Hin as [j Hj]. exists j. split; [done|].
    rewrite (cells_of_lookup _ _ _ _ Hj).
    by rewrite lookup_insert_ne, Hk.
  - assert ("sample" ∈ out_header sh) as Hin.
    { apply elem_of_list_insert_at, issubset_true; [done|].
      unfold columns. apply elem_of_cons. by left. }
    apply list_elem_of_lookup_1 in Hin as [j Hj]. exists j. split; [done|].
    rewrite (cells_of_lookup _ _ _ _ Hj). by rewrite lookup_insert_eq.
  - intros Hnone.
    rewrite (cells_of_lookup _ _ 1 "single_end") by (by rewrite Hheader).
    by rewrite lookup_insert_ne, Hnone.
Qed.

Lemma C5_witness :
  ∃ ss lines,
    samples_of [scenario1_row] ss ∧
    Some [["sample"; "single_end"; "vcf"; "traits"; "ancestry"];
          ["S1_T1"; ""; "S1.vcf.gz"; "S1_traits-json.json";
           "S1_ancestry-json.json"]]
    = Some (["sample"; "single_end"; "vcf"; "traits"; "ancestry"] :: lines) ∧
    length lines = 1.
Proof.
  assert (check_samplesheet columns plain_repr
            (sheet_of columns [scenario1_row]) no_file
          = (Ok tt,
             {| log := [];
                out_file :=
                  Some [["sample"; "single_end"; "vcf"; "traits"; "ancestry"];
                        ["S1_T1"; ""; "S1.vcf.gz"; "S1_traits-json.json";
                         "S1_ancestry-json.json"]] |})) as Hrun
    by (vm_compute; reflexivity).
  destruct (C5_output_shape columns plain_repr
              (sheet_of columns [scenario1_row]) no_file _ Hrun)
    as (ss & lines & Hss & Hfile & Hlen & _).
  exists ss, lines. split; [exact Hss|]. split; [exact Hfile | exact Hlen].
Defined.

(** C6. With a header found by the sniffer: when some required column is
    not among the header's names, the run logs one message and ends with
    [sys.exit(1)], exit status 1, the output path not written; the message
    is the fixed text followed by the required columns, joined by commas in
    the order in which the set is iterated, and by the [repr] of the list
    of the names found, so it mentions every required column and the [repr]
    of every name found.  When every required column is among the names,
    whatever other names there are, the run goes on with the rows. *)
Theorem C6_required_columns (order : list string) (repr : string → string)
    (sh : Sheet) (w : World) :
  has_header sh = Ok true → sniff sh = Ok tt →
  order ≡ₚ columns →
  (¬ (∀ c, c ∈ columns → c ∈ fieldnames sh) →
   let msg :=
     "The sample sheet **must** contain these column headers: " +:+
     join ", " order +:+ ". It currently contains " +:+
     "[" +:+ join ", " (repr <$> fieldnames sh) +:+ "]" in
   check_samplesheet order repr sh w
   = (Raise (SystemExit 1),
      {| log := log w ++ [msg]; out_file := out_file w |}) ∧
   exit_status (check_samplesheet order repr sh w).1 = 1%Z ∧
   (∀ c, c ∈ columns → mentions msg c) ∧
   (∀ c, c ∈ fieldnames sh → mentions msg (repr c))) ∧
  ((∀ c, c ∈ columns → c ∈ fieldnames sh) →
   check_samplesheet order repr sh w = rows_stage sh w).
Proof.
  intros Hh Hs Horder. split.
  - intros Hmissing msg.
    assert (issubset required_columns (fieldnames sh) = false) as Hsub.
    { apply not_true_is_false. by rewrite issubset_true. }
    rewrite check_samplesheet_header_bad by done.
    split; [done|]. split; [done|]. split.
    + intros c Hc. subst msg. apply mentions_inside, join_mentions.
      by rewrite Horder.
    + intros c Hc.
      replace msg with
        (("The sample sheet **must** contain these column headers: " +:+
          join ", " order +:+ ". It currently contains " +:+ "[") +:+
         join ", " (repr <$> fieldnames sh) +:+ "]")
        by (subst msg; by rewrite !append_assoc).
      apply mentions_inside, join_mentions, list_elem_of_fmap. eauto.
  - intros Hall. apply check_samplesheet_header_ok; [done..|].
    by apply issubset_true.
Qed.

Lemma C6_witness :
  check_samplesheet ["vcf"; "ancestry"; "sample"; "traits"] plain_repr
    (sheet_of ["sample"; "vcf"; "traits"] []) old_file
  = (Raise (SystemExit 1),
     {| log := ["The sample sheet **must** contain these column headers: vcf, ancestry, sample, traits. It currently contains ['sample', 'vcf', 'traits']"];
        out_file := Some [["kept"]] |}).
Proof.
  assert (["vcf"; "ancestry"; "sample"; "traits"] ≡ₚ columns) as Hperm.
  { unfold columns.
    apply (Permutation_trans (l' := ["vcf"; "sample"; "ancestry"; "traits"])).
    - apply perm_skip, perm_swap.
    - apply (Permutation_trans (l' := ["sample"; "vcf"; "ancestry"; "traits"])).
      + apply perm_swap.
      + do 2 apply perm_skip. apply perm_swap. }
  refine (proj1 (proj1 (C6_required_columns _ plain_repr
            (sheet_of ["sample"; "vcf"; "traits"] []) old_file
            eq_refl eq_refl Hperm) _)).
  intros Hall. specialize (Hall "ancestry").
  assert ("ancestry" ∈ ["sample"; "vcf"; "traits"]) as Hin.
  { apply Hall. unfold columns.
    do 3 (apply elem_of_cons; right). apply elem_of_cons. by left. }
  apply elem_of_cons in Hin as [Hin|Hin]; [discriminate|].
  apply elem_of_cons in Hin as [Hin|Hin]; [discriminate|].
  apply elem_of_cons in Hin as [Hin|Hin]; [discriminate|].
  by apply elem_of_nil in Hin.
Defined.

(** C7. When the row at index [i] of the parsed rows (counted from 0) is the
    first to fail a suffix check with the reason [msg], the run logs
    [msg], followed by [ On line ], the number [i + 2] and a full stop, and
    ends with [sys.exit(1)]: exit status 1, the output path not written. *)
Theorem C7_line_number (order : list string) (repr : string → string)
    (sh : Sheet) (w : World)
    (pre : list Row) (row : Row) (post : list Row)
    (ss : list string) (msg : string) :
  has_header sh = Ok true → sniff sh = Ok tt →
  issubset required_columns (fieldnames sh) = true →
  records sh = pre ++ row :: post →
  samples_of pre ss →
  Forall (λ r, suffixes_ok r = true) pre →
  (_validate_sample row RowChecker_init).1 = Raise (AssertionError msg) →
  let i := length pre in
  check_samplesheet order repr sh w
  = (Raise (SystemExit 1),
     {| log := log w ++ [msg +:+ " On line " +:+ str (i + 2) +:+ "."];
        out_file := out_file w |}) ∧
  exit_status (check_samplesheet order repr sh w).1 = 1%Z.
Proof.
  intros Hh Hs Hsub Hrows Hss Hok Hfail i.
  rewrite checker_of_init, validate_sample_verdict in Hfail. simpl in Hfail.
  assert (check_samplesheet order repr sh w
          = (Raise (SystemExit 1),
             {| log := log w ++ [msg +:+ " On line " +:+ str (i + 2) +:+ "."];
                out_file := out_file w |})) as ->; [|done].
  rewrite check_samplesheet_header_ok by done.
  unfold rows_stage. unfold mbind at 1, M_bind at 1.
  rewrite Hrows, checker_of_init.
  by rewrite (validate_rows_reject pre 0 ss ∅ [] w row post msg).
Qed.

Lemma C7_witness :
  check_samplesheet columns plain_repr
    (sheet_of columns [sample_row "S1" "S1.vcf.gz"; sample_row "S2" "S2.vcf"])
    old_file
  = (Raise (SystemExit 1),
     {| log := ["Unexpected VCF file extension: S2.vcf. The valid VCF extension should be: vcf.gz. On line 3."];
        out_file := Some [["kept"]] |}).
Proof.
  refine (proj1 (C7_line_number columns plain_repr
            (sheet_of columns [sample_row "S1" "S1.vcf.gz";
                               sample_row "S2" "S2.vcf"])
            old_file [sample_row "S1" "S1.vcf.gz"] (sample_row "S2" "S2.vcf")
            [] ["S1"]
            "Unexpected VCF file extension: S2.vcf. The valid VCF extension should be: vcf.gz."
            eq_refl eq_refl eq_refl eq_refl _ _ eq_refl)).
  - repeat constructor.
  - repeat constructor.
Defined.

(** C8. When a validation step fails (the sniffer finds no header or no
    dialect, a required column is missing, some row fails a suffix check,
    or a sample value occurs twice) the run does not end normally and the
    file at the output path is what it was before the run: absent if it
    was absent, unchanged if it existed. *)
Theorem C8_no_output_on_failure (order : list string) (repr : string → string)
    (sh : Sheet) (w : World) :
  has_header sh ≠ Ok true ∨
  sniff sh ≠ Ok tt ∨
  issubset required_columns (fieldnames sh) = false ∨
  Exists (λ row, suffixes_ok row = false) (records sh) ∨
  (∃ ss, samples_of (records sh) ss ∧ ¬ NoDup ss) →
  out_file (check_samplesheet order repr sh w).2 = out_file w ∧
  (check_samplesheet order repr sh w).1 ≠ Ok tt.
Proof.
  intros Hfail.
  destruct (sniff_format sh w) as [r1 w1] eqn:Hsniff.
  pose proof (sniff_format_out_file _ _ _ _ Hsniff) as Hfile1.
  destruct r1 as [[]|e].
  - apply sniff_format_inv in Hsniff as (Hh & Hs & ->).
    destruct (issubset required_columns (fieldnames sh)) eqn:Hsub.
    + rewrite check_samplesheet_header_ok by done.
      destruct (rows_stage_invalid sh w) as (e & w' & -> & Hfile).
      { destruct Hfail as [?|[?|[?|[?|?]]]]; try done; eauto. }
      done.
    + by rewrite check_samplesheet_header_bad by done.
  - by rewrite (check_samplesheet_sniff_raise _ _ _ _ _ _ Hsniff).
Qed.

Lemma C8_witness :
  check_samplesheet columns plain_repr
    (sheet_of columns [sample_row "S1" "a.vcf.gz"; sample_row "S1" "b.vcf.gz"])
    old_file
  = (Raise (AssertionError unique_message), old_file) ∧
  out_file
    (check_samplesheet columns plain_repr
       (sheet_of columns [sample_row "S1" "S1.vcf.gz"; sample_row "S2" "S2.vcf"])
       old_file).2
  = Some [["kept"]].
Proof.
  split; [reflexivity|].
  refine (proj1 (C8_no_output_on_failure columns plain_repr
            (sheet_of columns [sample_row "S1" "S1.vcf.gz";
                               sample_row "S2" "S2.vcf"])
            old_file _)).
  do 3 right. left. apply Exists_cons_tl, Exists_cons_hd. reflexivity.
Defined.

(** C9. Whenever the renaming pass runs to its end on the rows that the
    validation loop has accepted, the sample values of the sheet are pairwise
    distinct, every entry of the pass's counter is 1, and every row comes
    out with its own sample value followed by [_T1]: no [_T2] is ever
    produced. *)
Theorem C9_only_T1 (rows : list Row) (w w' : World)
    (checker checker' : RowChecker) :
  validate_rows 0 rows RowChecker_init w = (Ok checker, w') →
  validate_unique_samples checker = (Ok tt, checker') →
  ∃ ss counter,
    samples_of rows ss ∧ NoDup ss ∧
    rename_loop (_sample checker) ∅ [] (modified checker)
    = (Ok tt, modified checker', counter) ∧
    (∀ s n, counter !! s = Some n → n = 1) ∧
    modified checker'
    = zip_with (λ row s, <["sample" := s +:+ "_T1"]> row) rows ss.
Proof.
  intros Hrows Hunique. rewrite checker_of_init in Hrows.
  apply validate_rows_inv in Hrows as (-> & Hok & ss & Hss & ->).
  rewrite (right_id_L ∅ (∪)), app_nil_l in Hunique |- *.
  assert (NoDup ss) as Hnd by (by eapply validate_unique_samples_inv).
  rewrite validate_unique_samples_accept in Hunique by done.
  injection Hunique as <-.
  destruct (rename_loop_distinct rows ss ∅ [] Hss Hnd)
    as (counter & Hloop & Hcounter); [intros; apply lookup_empty|].
  exists ss, counter. split; [done|]. split; [done|]. split; [done|].
  split; [|done].
  intros s n Hn. rewrite Hcounter, lookup_empty in Hn.
  case_decide; congruence.
Qed.

Lemma C9_witness :
  ∃ checker',
    validate_unique_samples
      (checker_of {["S1"; "S2"]} [sample_row "S1" "a.vcf.gz";
                                  sample_row "S2" "b.vcf.gz"])
    = (Ok tt, checker') ∧
    modified checker'
    = [<["sample" := "S1_T1"]> (sample_row "S1" "a.vcf.gz");
       <["sample" := "S2_T1"]> (sample_row "S2" "b.vcf.gz")].
Proof.
  eexists. split; [reflexivity|].
  destruct (C9_only_T1 [sample_row "S1" "a.vcf.gz"; sample_row "S2" "b.vcf.gz"]
              no_file no_file _ _ eq_refl eq_refl)
    as (ss & counter & Hss & _ & _ & _ & Hmod).
  apply Forall2_cons_inv_l in Hss as (s1 & ss1 & Hs1 & Hss & ->).
  apply Forall2_cons_inv_l in Hss as (s2 & ss2 & Hs2 & Hss & ->).
  apply Forall2_nil_inv_l in Hss as ->.
  injection Hs1 as <-. injection Hs2 as <-. exact Hmod.
Defined.

(** C10. The sample cell is not looked at by per-row validation: a row
    whose vcf, traits and ancestry cells carry their suffixes is accepted
    with any sample text [s], and a sheet made of that row is written out
    with the sample [s] followed by [_T1]; for the empty text that is
    [_T1]. *)
Theorem C10_sample_unconstrained (order : list string) (repr : string → string)
    (sh : Sheet) (w : World) (row : Row) (s : string) :
  has_header sh = Ok true → sniff sh = Ok tt →
  issubset required_columns (fieldnames sh) = true →
  records sh = [row] →
  keys_in (fieldnames sh) row →
  row !! "sample" = Some s →
  suffixes_ok row = true →
  (∀ seen rows,
     validate_and_transform row (checker_of seen rows)
     = (Ok tt, checker_of ({[s]} ∪ seen) (rows ++ [row]))) ∧
  check_samplesheet order repr sh w
  = (Ok tt,
     {| log := log w;
        out_file :=
          Some [out_header sh;
                cells_of (out_header sh) (<["sample" := s +:+ "_T1"]> row)] |}) ∧
  (s = "" → <["sample" := s +:+ "_T1"]> row !! "sample" = Some "_T1").
Proof.
  intros Hh Hs Hsub Hrows Hkeys Hsample Hok. split; [|split].
  - intros seen rows. rewrite validate_and_transform_eq.
    apply verdict_ok in Hok as ->. by rewrite Hsample.
  - rewrite check_samplesheet_header_ok by done. destruct w as [lg file].
    rewrite (rows_stage_ok sh [s]); rewrite ?Hrows.
    + done.
    + by repeat constructor.
    + by repeat constructor.
    + apply NoDup_singleton.
    + repeat constructor. by apply keys_in_out_header.
  - intros ->. apply lookup_insert_eq.
Qed.

Lemma C10_witness :
  check_samplesheet columns plain_repr
    (sheet_of columns [sample_row "" "S1.vcf.gz"]) no_file
  = (Ok tt,
     {| log := [];
        out_file :=
          Some [["sample"; "single_end"; "vcf"; "traits"; "ancestry"];
                ["_T1"; ""; "S1.vcf.gz"; "S1_traits-json.json";
                 "S1_ancestry-json.json"]] |}).
Proof.
  refine (proj1 (proj2 (C10_sample_unconstrained columns plain_repr
            (sheet_of columns [sample_row "" "S1.vcf.gz"]) no_file
            (sample_row "" "S1.vcf.gz") ""
            eq_refl eq_refl eq_refl eq_refl _ eq_refl eq_refl))).
  apply keys_in_filter. reflexivity.
Defined.

(** * Further properties of the script *)

(** ** read_head and sniff_format on a handle *)

Lemma read_head_loop_eq unread : ∀ num_lines idx lines pos,
  idx ≤ num_lines →
  read_head_loop num_lines idx unread lines pos
  = (lines ++ take (num_lines - idx) unread,
     pos + min (S (num_lines - idx)) (length unread)).
Proof.
  induction unread as [|line unread IH]; intros num_lines idx lines pos Hle.
  - simpl. rewrite take_nil, app_nil_r. f_equal. lia.
  - simpl. destruct (Nat.eqb_spec idx num_lines) as [->|Hne].
    + rewrite Nat.sub_diag. simpl. rewrite app_nil_r. f_equal. lia.
    + rewrite IH by lia.
      replace (num_lines - idx) with (S (num_lines - S idx)) by lia.
      simpl. rewrite <- app_assoc. simpl. f_equal. lia.
Qed.

(** X1. [read_head] gives back the text of the first [num_lines] lines
    from the position of the handle, or of all the lines left when there are
    fewer, and leaves the handle one line further than the text it gives
    back when the file has a line more: the line at which the loop breaks is
    taken from the file and dropped. *)
Theorem X1_read_head (num_lines : nat) (handle : Handle) :
  let unread := drop (position handle) (file_lines handle) in
  read_head num_lines handle
  = (join "" (take num_lines unread),
     {| file_lines := file_lines handle;
        position := position handle + min (S num_lines) (length unread) |}).
Proof.
  intros unread. unfold read_head. fold unread.
  rewrite read_head_loop_eq by lia. by rewrite Nat.sub_0_r.
Qed.

Lemma sniff_format_handle_eq (sniffer : Sniffer) (handle : Handle) (w : World)
    (names : list string) (rows : list Row) :
  let peek := join "" (take 10 (drop (position handle) (file_lines handle))) in
  sniff_format_handle sniffer (handle, w)
  = ((sniff_format (sheet_on sniffer peek names rows) w).1,
     (seek0 handle, (sniff_format (sheet_on sniffer peek names rows) w).2)).
Proof.
  intros peek. subst peek. unfold sniff_format_handle, read_head.
  rewrite read_head_loop_eq by lia. rewrite Nat.sub_0_r.
  unfold sniff_format, sheet_on, seek0. unfold_m. simpl.
  destruct (sniffer_has_header sniffer _) as [[]|e]; simpl; [|done..].
  by destruct (sniffer_sniff sniffer _).
Qed.

(** X2. [sniff_format] on a handle gives the sniffer the text of the first
    ten lines from the position of the handle and nothing else, puts the
    handle back at the start of the file whatever the sniffer answers, and
    otherwise does what the model of the sheet says with the sniffer's two
    answers on that text.  Hence two files with the same first ten lines get
    the same verdict. *)
Theorem X2_sniff_format_handle (sniffer : Sniffer) (handle : Handle)
    (w : World) (names : list string) (rows : list Row) :
  let peek := join "" (take 10 (drop (position handle) (file_lines handle))) in
  let sh := sheet_on sniffer peek names rows in
  sniff_format_handle sniffer (handle, w)
  = ((sniff_format sh w).1,
     ({| file_lines := file_lines handle; position := 0 |},
      (sniff_format sh w).2)) ∧
  ∀ other : Handle,
    take 10 (drop (position other) (file_lines other))
    = take 10 (drop (position handle) (file_lines handle)) →
    (sniff_format_handle sniffer (other, w)).1
    = (sniff_format_handle sniffer (handle, w)).1 ∧
    (sniff_format_handle sniffer (other, w)).2.2
    = (sniff_format_handle sniffer (handle, w)).2.2.
Proof.
  intros peek sh. split; [apply sniff_format_handle_eq|].
  intros other Hsame.
  rewrite (sniff_format_handle_eq sniffer other w names rows).
  rewrite (sniff_format_handle_eq sniffer handle w names rows).
  by rewrite Hsame.
Qed.

Lemma X2_witness :
  (sniff_format_handle
     {| sniffer_has_header := λ peek, Ok (String.eqb peek "0123456789");
        sniffer_sniff := λ _, Ok tt |}
     ({| file_lines := ["0"; "1"; "2"; "3"; "4"; "5"; "6"; "7"; "8"; "9";
                        "S1"; "S2"];
         position := 0 |}, no_file)).1
  = (sniff_format_handle
       {| sniffer_has_header := λ peek, Ok (String.eqb peek "0123456789");
          sniffer_sniff := λ _, Ok tt |}
       ({| file_lines := ["0"; "1"; "2"; "3"; "4"; "5"; "6"; "7"; "8"; "9"];
           position := 0 |}, no_file)).1.
Proof.
  refine (proj1 (proj2 (X2_sniff_format_handle
            {| sniffer_has_header := λ peek, Ok (String.eqb peek "0123456789");
               sniffer_sniff := λ _, Ok tt |}
            {| file_lines := ["0"; "1"; "2"; "3"; "4"; "5"; "6"; "7"; "8"; "9"];
               position := 0 |} no_file [] [])
            {| file_lines := ["0"; "1"; "2"; "3"; "4"; "5"; "6"; "7"; "8"; "9";
                              "S1"; "S2"];
               position := 0 |} eq_refl)).
Defined.

(** ** The stages before the rows *)

(** X3. What the sniffer says comes first.  When it finds no header the
    run logs that one message and ends with [sys.exit(1)]; when either of
    its two calls raises, the exception ends the run with nothing logged.
    In all three cases the header's names and the rows play no part and the
    output path is not written. *)
Theorem X3_sniffer_first (order : list string) (repr : string → string)
    (sh : Sheet) (w : World) :
  (has_header sh = Ok false →
   check_samplesheet order repr sh w
   = (Raise (SystemExit 1),
      {| log := log w ++ [no_header_message]; out_file := out_file w |})) ∧
  (∀ e, has_header sh = Raise e →
        check_samplesheet order repr sh w = (Raise e, w)) ∧
  (∀ e, has_header sh = Ok true → sniff sh = Raise e →
        check_samplesheet order repr sh w = (Raise e, w)).
Proof.
  split; [|split].
  - intros Hh. apply check_samplesheet_sniff_raise.
    unfold sniff_format. unfold_m. by rewrite Hh.
  - intros e Hh. apply check_samplesheet_sniff_raise.
    unfold sniff_format. unfold_m. by rewrite Hh.
  - intros e Hh Hs. apply check_samplesheet_sniff_raise.
    unfold sniff_format. unfold_m. by rewrite Hh, Hs.
Qed.

Lemma X3_witness :
  check_samplesheet columns plain_repr
    {| has_header := Ok false; sniff := Ok tt;
       fieldnames := ["x"]; records := [scenario1_row] |} old_file
  = (Raise (SystemExit 1),
     {| log := ["The given sample sheet does not appear to contain a header."];
        out_file := Some [["kept"]] |}).
Proof.
  exact (proj1 (X3_sniffer_first columns plain_repr
                  {| has_header := Ok false; sniff := Ok tt;
                     fieldnames := ["x"]; records := [scenario1_row] |}
                  old_file) eq_refl).
Defined.

(** ** validate_and_transform under any column names *)

Lemma validate_sample_cases (self : RowChecker) (row : Row) :
  (suffixes_ok_for self row = true ∧
   _validate_sample row self = (Ok tt, self)) ∨
  (suffixes_ok_for self row = false ∧
   ∃ e, _validate_sample row self = (Raise e, self) ∧
        ((∃ msg, e = AssertionError msg) ∨ (∃ key, e = KeyError key))).
Proof.
  unfold _validate_sample, suffixes_ok_for, ends_in. unfold_m. simpl.
  destruct (row !! _vcf self) as [v|]; simpl; [|right; eauto 8].
  destruct (endswith v _); simpl; [|right; eauto 8].
  destruct (row !! _traits self) as [t|]; simpl; [|right; eauto 8].
  destruct (endswith t _); simpl; [|right; eauto 8].
  destruct (row !! _ancestry self) as [a|]; simpl; [|right; eauto 8].
  destruct (endswith a _); simpl; [by left | right; eauto 8].
Qed.

Lemma validate_and_transform_accept_for (self : RowChecker) (row : Row) s :
  row !! _sample self = Some s → suffixes_ok_for self row = true →
  validate_and_transform row self
  = (Ok tt, modified_append row (seen_add s self)).
Proof.
  intros Hs Hok. unfold validate_and_transform.
  destruct (validate_sample_cases self row) as [[_ Hv]|[Hbad _]];
    [|congruence].
  unfold mbind at 1, M_bind at 1. rewrite Hv. unfold_m. by rewrite Hs.
Qed.

Lemma validate_and_transform_cases (self : RowChecker) (row : Row) :
  (∃ s, row !! _sample self = Some s ∧ suffixes_ok_for self row = true ∧
        validate_and_transform row self
        = (Ok tt, modified_append row (seen_add s self))) ∨
  (∃ e, validate_and_transform row self = (Raise e, self) ∧
        ((∃ msg, e = AssertionError msg) ∨ (∃ key, e = KeyError key))).
Proof.
  destruct (validate_sample_cases self row)
    as [[Hok Hv]|[Hbad (e & Hv & He)]].
  - destruct (row !! _sample self) as [s|] eqn:Hs.
    + left. exists s. split; [done|]. split; [done|].
      by apply validate_and_transform_accept_for.
    + right. exists (KeyError (_sample self)). split; [|eauto].
      unfold validate_and_transform.
      unfold mbind at 1, M_bind at 1. rewrite Hv. unfold_m. by rewrite Hs.
  - right. exists e. split; [|done].
    unfold validate_and_transform.
    unfold mbind at 1, M_bind at 1. by rewrite Hv.
Qed.


(** ** The renaming pass in general *)

Lemma occurrences_nil s : occurrences s [] = 0.
Proof. done. Qed.

Lemma occurrences_cons s x l :
  occurrences s (x :: l)
  = (if decide (x = s) then 1 else 0) + occurrences s l.
Proof.
  unfold occurrences. rewrite filter_cons.
  by destruct (decide (x = s)).
Qed.

Lemma occurrences_not_elem s l : s ∉ l → occurrences s l = 0.
Proof.
  induction l as [|x l IH]; [done|]. intros [Hne Hnin]%not_elem_of_cons.
  rewrite occurrences_cons, IH by done. by rewrite decide_False.
Qed.

Lemma occurrences_elem s l : s ∈ l → 1 ≤ occurrences s l.
Proof.
  induction l as [|x l IH]; [by intros ?%elem_of_nil|].
  rewrite occurrences_cons. intros [->|Hin]%elem_of_cons.
  - rewrite decide_True by done. lia.
  - specialize (IH Hin). lia.
Qed.

(** In a list without repetition an entry is the first of its kind. *)
Lemma occurrences_NoDup l : ∀ i s,
  NoDup l → l !! i = Some s → occurrences s (take (S i) l) = 1.
Proof.
  induction l as [|x l IH]; intros i s Hnd Hi; [done|].
  apply NoDup_cons in Hnd as [Hnin Hnd].
  destruct i as [|i]; simpl in Hi.
  - injection Hi as ->. simpl. rewrite take_0, occurrences_cons.
    by rewrite decide_True.
  - change (take (S (S i)) (x :: l)) with (x :: take (S i) l).
    rewrite occurrences_cons, (IH i s) by done.
    rewrite decide_False; [done|]. intros ->.
    apply Hnin. by eapply list_elem_of_lookup_2.
Qed.

Lemma rename_loop_counts (col : string) (todo : list Row) : ∀ ss seen acc,
  Forall2 (λ (row : Row) s, row !! col = Some s) todo ss →
  ∃ out counter,
    rename_loop col seen acc todo = (Ok tt, acc ++ out, counter) ∧
    length out = length todo ∧
    (∀ i row s,
       todo !! i = Some row → ss !! i = Some s →
       out !! i
       = Some (<[col := s +:+ "_T" +:+
                        str (default 0 (seen !! s)
                             + occurrences s (take (S i) ss))]> row)) ∧
    (∀ s, default 0 (counter !! s)
          = default 0 (seen !! s) + occurrences s ss).
Proof.
  induction todo as [|row rest IH]; intros ss seen acc Hss.
  - apply Forall2_nil_inv_l in Hss as ->. exists [], seen. simpl.
    rewrite app_nil_r. split; [done|]. split; [done|]. split; [done|].
    intros s. rewrite occurrences_nil. lia.
  - apply Forall2_cons_inv_l in Hss as (s & ss' & Hs & Hss' & ->).
    simpl. rewrite Hs.
    set (n := S (default 0 (seen !! s))).
    set (row' := <[col := s +:+ "_T" +:+ str n]> row).
    destruct (IH ss' (<[s:=n]> seen) (acc ++ [row']) Hss')
      as (out & counter & Hrun & Hlen & Hout & Hcounter).
    assert (∀ t, default 0 (<[s:=n]> seen !! t)
                 = default 0 (seen !! t) + (if decide (s = t) then 1 else 0))
      as Hseen.
    { intros t. destruct (decide (s = t)) as [->|Hne].
      - rewrite lookup_insert_eq. simpl. subst n. lia.
      - rewrite lookup_insert_ne by done. lia. }
    exists (row' :: out), counter. split; [|split; [|split]].
    + by rewrite Hrun, <- app_assoc.
    + simpl. by rewrite Hlen.
    + intros i r t Hi Ht. destruct i as [|i]; simpl in Hi, Ht.
      * injection Hi as <-. injection Ht as <-. simpl.
        rewrite take_0, occurrences_cons, decide_True, occurrences_nil by done.
        replace (default 0 (seen !! s) + (1 + 0)) with n by (subst n; lia).
        done.
      * simpl. rewrite (Hout i r t Hi Ht).
        change (take (S (S i)) (s :: ss')) with (s :: take (S i) ss').
        rewrite occurrences_cons, (Hseen t), Nat.add_assoc. done.
    + intros t. rewrite Hcounter, occurrences_cons, (Hseen t). lia.
Qed.



Lemma rename_loop_NoDup (col : string) (todo : list Row) (ss : list string) :
  Forall2 (λ (row : Row) s, row !! col = Some s) todo ss → NoDup ss →
  ∃ counter,
    rename_loop col ∅ [] todo
    = (Ok tt, zip_with (λ row s, <[col := s +:+ "_T1"]> row) todo ss, counter).
Proof.
  intros Hss Hnd.
  destruct (rename_loop_counts col todo ss ∅ [] Hss)
    as (out & counter & Hrun & Hlen & Hout & _).
  exists counter. rewrite Hrun. simpl. do 2 f_equal.
  pose proof (Forall2_length _ _ _ Hss) as Hlen'.
  apply list_eq. intros i. rewrite lookup_zip_with.
  destruct (todo !! i) as [row|] eqn:Hrow; simpl.
  - destruct (ss !! i) as [s|] eqn:Hs; simpl.
    + rewrite (Hout i row s Hrow Hs), lookup_empty. simpl.
      by rewrite (occurrences_NoDup ss i s Hnd Hs).
    + apply lookup_ge_None in Hs. apply lookup_lt_Some in Hrow. lia.
  - apply lookup_ge_None. apply lookup_ge_None in Hrow. lia.
Qed.


(** X5. The order of the checks in [validate_and_transform], under any column
    names: the vcf cell is looked at first, then the traits cell, then the
    ancestry cell, and the sample cell only when the three have passed.  A
    dict that lacks one of these keys raises the KeyError of the first
    lookup that is reached, and a wrong suffix in an earlier cell is what is
    reported, whatever holds of the later ones.  The checker is unchanged in
    every case. *)
Theorem X5_check_order (self : RowChecker) (row : Row) :
  (row !! _vcf self = None →
   validate_and_transform row self = (Raise (KeyError (_vcf self)), self)) ∧
  (∀ v, row !! _vcf self = Some v → endswith v ".vcf.gz" = false →
   validate_and_transform row self
   = (Raise (AssertionError (vcf_message v)), self)) ∧
  (ends_in row (_vcf self) ".vcf.gz" = true →
   row !! _traits self = None →
   validate_and_transform row self
   = (Raise (KeyError (_traits self)), self)) ∧
  (ends_in row (_vcf self) ".vcf.gz" = true →
   ends_in row (_traits self) "_traits-json.json" = true →
   row !! _ancestry self = None →
   validate_and_transform row self
   = (Raise (KeyError (_ancestry self)), self)) ∧
  (suffixes_ok_for self row = true → row !! _sample self = None →
   validate_and_transform row self
   = (Raise (KeyError (_sample self)), self)).
Proof.
  unfold validate_and_transform, _validate_sample, suffixes_ok_for, ends_in.
  unfold_m. simpl. split; [|split; [|split; [|split]]].
  - by intros ->.
  - intros v -> Hbad. simpl. by rewrite Hbad.
  - destruct (row !! _vcf self) as [v|]; simpl; [|done]. intros -> ->. done.
  - destruct (row !! _vcf self) as [v|]; simpl; [|done]. intros ->. simpl.
    destruct (row !! _traits self) as [t|]; simpl; [|done]. intros -> ->. done.
  - destruct (row !! _vcf self) as [v|]; simpl; [|done].
    destruct (endswith v _); simpl; [|done].
    destruct (row !! _traits self) as [t|]; simpl; [|done].
    destruct (endswith t _); simpl; [|done].
    destruct (row !! _ancestry self) as [a|]; simpl; [|done].
    destruct (endswith a _); simpl; [|done]. by intros _ ->.
Qed.

Lemma X5_witness :
  validate_and_transform
    {[ "sample" := "S1"; "vcf" := "S1.vcf" ]}
    (RowChecker_new "sample" "vcf" "traits" "ancestry")
  = (Raise (AssertionError (vcf_message "S1.vcf")),
     RowChecker_new "sample" "vcf" "traits" "ancestry") ∧
  validate_and_transform
    {[ "sample" := "S1"; "vcf" := "S1.vcf.gz" ]}
    (RowChecker_new "sample" "vcf" "traits" "ancestry")
  = (Raise (KeyError "traits"),
     RowChecker_new "sample" "vcf" "traits" "ancestry").
Proof.
  split.
  - exact (proj1 (proj2 (X5_check_order
             (RowChecker_new "sample" "vcf" "traits" "ancestry")
             {[ "sample" := "S1"; "vcf" := "S1.vcf" ]}))
             "S1.vcf" eq_refl eq_refl).
  - exact (proj1 (proj2 (proj2 (X5_check_order
             (RowChecker_new "sample" "vcf" "traits" "ancestry")
             {[ "sample" := "S1"; "vcf" := "S1.vcf.gz" ]})))
             eq_refl eq_refl).
Defined.

(** ** The checkers that calls can reach *)

Lemma suffixes_ok_for_names (c1 c2 : RowChecker) (row : Row) :
  _vcf c1 = _vcf c2 → _traits c1 = _traits c2 → _ancestry c1 = _ancestry c2 →
  suffixes_ok_for c1 row = suffixes_ok_for c2 row.
Proof. unfold suffixes_ok_for. by intros -> -> ->. Qed.

Lemma reachable_inv (init self : RowChecker) :
  _seen init = ∅ → modified init = [] →
  reachable init self →
  (_sample self, _vcf self, _traits self, _ancestry self)
  = (_sample init, _vcf init, _traits init, _ancestry init) ∧
  ∃ ss,
    Forall2 (λ (row : Row) s, row !! _sample init = Some s) (modified self) ss ∧
    _seen self = list_to_set ss ∧
    Forall (λ row, suffixes_ok_for init row = true) (modified self).
Proof.
  intros Hseen Hmod. induction 1 as [|self row Hreach IH].
  - split; [done|]. exists []. rewrite Hseen, Hmod. by repeat split.
  - destruct IH as (Hnames & ss & Hss & Hset & Hok).
    injection Hnames as Hsa Hv Ht Ha.
    destruct (validate_and_transform_cases self row)
      as [(s & Hs & Hrow & ->)|(e & -> & _)]; simpl.
    + split; [by rewrite Hsa, Hv, Ht, Ha|].
      exists (ss ++ [s]). split; [|split].
      * apply Forall2_app; [done|]. constructor; [|done]. by rewrite <- Hsa.
      * rewrite Hset, list_to_set_app_L. simpl. set_solver.
      * apply Forall_app. split; [done|]. constructor; [|done].
        by rewrite <- (suffixes_ok_for_names self init).
    + split; [by rewrite Hsa, Hv, Ht, Ha|]. by exists ss.
Qed.

(** X6. Whatever rows a fresh checker has been given, accepted or not, and
    under any column names: the column names are those it was made with,
    [modified] holds rows that all pass the three suffix checks, [_seen] is
    exactly the set of their sample cells, and so [_seen] never has more
    members than [modified] has rows. *)
Theorem X6_checker_invariant (sample vcf traits ancestry : string)
    (self : RowChecker) :
  reachable (RowChecker_new sample vcf traits ancestry) self →
  (_sample self, _vcf self, _traits self, _ancestry self)
  = (sample, vcf, traits, ancestry) ∧
  (∃ ss,
     Forall2 (λ (row : Row) s, row !! sample = Some s) (modified self) ss ∧
     _seen self = list_to_set ss) ∧
  Forall (λ row, suffixes_ok_for self row = true) (modified self) ∧
  size (_seen self) ≤ length (modified self).
Proof.
  intros Hreach.
  destruct (reachable_inv (RowChecker_new sample vcf traits ancestry) self
              eq_refl eq_refl Hreach)
    as (Hnames & ss & Hss & Hset & Hok).
  simpl in Hnames, Hss. injection Hnames as Hsa Hv Ht Ha.
  split; [by rewrite Hsa, Hv, Ht, Ha|]. split; [by exists ss|]. split.
  - eapply Forall_impl; [exact Hok|]. intros row Hrow.
    by rewrite (suffixes_ok_for_names self
                  (RowChecker_new sample vcf traits ancestry)).
  - rewrite Hset, (Forall2_length _ _ _ Hss). apply size_list_to_set_le.
Qed.

Lemma X6_witness :
  size (_seen (validate_and_transform (sample_row "S1" "b.vcf.gz")
                 (validate_and_transform (sample_row "S1" "a.vcf.gz")
                    (RowChecker_new "sample" "vcf" "traits" "ancestry")).2).2)
  ≤ 2.
Proof.
  exact (proj2 (proj2 (proj2 (X6_checker_invariant
           "sample" "vcf" "traits" "ancestry" _
           (reachable_call _ _ (sample_row "S1" "b.vcf.gz")
              (reachable_call _ _ (sample_row "S1" "a.vcf.gz")
                 (reachable_new _))))))).
Defined.

(** X7. On a checker reached by calls from a fresh one, under any column
    names, [validate_unique_samples] raises its AssertionError, leaving the
    checker as it is, exactly when some sample value stands in two of the
    accepted rows; otherwise it returns and every accepted row has its
    sample followed by [_T1]. *)
Theorem X7_unique_iff_no_repeat (sample vcf traits ancestry : string)
    (self : RowChecker) :
  reachable (RowChecker_new sample vcf traits ancestry) self →
  ∃ ss,
    Forall2 (λ (row : Row) s, row !! sample = Some s) (modified self) ss ∧
    (¬ NoDup ss →
     validate_unique_samples self
     = (Raise (AssertionError unique_message), self)) ∧
    (NoDup ss →
     validate_unique_samples self
     = (Ok tt,
        set_modified
          (zip_with (λ row s, <[sample := s +:+ "_T1"]> row)
             (modified self) ss) self)).
Proof.
  intros Hreach.
  destruct (reachable_inv (RowChecker_new sample vcf traits ancestry) self
              eq_refl eq_refl Hreach)
    as (Hnames & ss & Hss & Hset & _).
  simpl in Hnames, Hss. injection Hnames as Hsa _ _ _.
  exists ss. split; [done|]. split.
  - intros Hdup. apply validate_unique_samples_reject.
    rewrite Hset. intros Hsize. apply Hdup, size_list_to_set_NoDup.
    by rewrite Hsize, (Forall2_length _ _ _ Hss).
  - intros Hnd. unfold validate_unique_samples. unfold_m.
    rewrite bool_decide_eq_true_2; simpl.
    + rewrite Hsa.
      by destruct (rename_loop_NoDup sample (modified self) ss Hss Hnd)
        as (counter & ->).
    + rewrite Hset, size_list_to_set by done.
      symmetry. by apply (Forall2_length _ _ _ Hss).
Qed.

Lemma X7_witness :
  validate_unique_samples
    (validate_and_transform (sample_row "S1" "b.vcf.gz")
       (validate_and_transform (sample_row "S1" "a.vcf.gz")
          (RowChecker_new "sample" "vcf" "traits" "ancestry")).2).2
  = (Raise (AssertionError unique_message),
     (validate_and_transform (sample_row "S1" "b.vcf.gz")
        (validate_and_transform (sample_row "S1" "a.vcf.gz")
           (RowChecker_new "sample" "vcf" "traits" "ancestry")).2).2).
Proof.
  destruct (X7_unique_iff_no_repeat "sample" "vcf" "traits" "ancestry" _
              (reachable_call _ _ (sample_row "S1" "b.vcf.gz")
                 (reachable_call _ _ (sample_row "S1" "a.vcf.gz")
                    (reachable_new _))))
    as (ss & Hss & Hdup & _).
  apply Hdup. intros Hnd.
  apply Forall2_cons_inv_l in Hss as (s1 & ss1 & Hs1 & Hss & ->).
  apply Forall2_cons_inv_l in Hss as (s2 & ss2 & Hs2 & Hss & ->).
  injection Hs1 as <-. injection Hs2 as <-.
  apply NoDup_cons in Hnd as [Hnin _]. apply Hnin, elem_of_cons. by left.
Defined.



(** ** The sheets that are accepted, and what is written for them *)





Lemma dict_to_list_wrong fields (row : Row) :
  ¬ keys_in fields row →
  ∃ wrong, wrong ≠ [] ∧ _dict_to_list fields row = Raise (ValueError wrong).
Proof.
  intros Hkeys. unfold _dict_to_list.
  destruct (decide (filter (λ k, k ∉ fields) (elements (dom row)) = []))
    as [Hnil|Hne].
  - by apply keys_in_filter in Hnil.
  - eauto.
Qed.

Lemma write_rows_stop fields pre : ∀ (row : Row) post lg recs wrong,
  Forall (keys_in fields) pre →
  _dict_to_list fields row = Raise (ValueError wrong) →
  write_rows fields (pre ++ row :: post) {| log := lg; out_file := Some recs |}
  = (Raise (ValueError wrong),
     {| log := lg; out_file := Some (recs ++ (cells_of fields <$> pre)) |}).
Proof.
  induction pre as [|r pre IH]; intros row post lg recs wrong Hkeys Hwrong.
  - simpl. unfold writerow. unfold_m. rewrite Hwrong. by rewrite app_nil_r.
  - apply Forall_cons in Hkeys as [Hr Hpre]. simpl.
    unfold writerow at 1, writer_writerow. unfold_m.
    rewrite dict_to_list_ok by done. simpl.
    rewrite (IH row post lg _ wrong) by done. by rewrite <- app_assoc.
Qed.

(** X12. The output file can be left half written.  When a sheet passes
    every check but the dict of one row has a key that is no column of the
    output, the [ValueError] of the writer ends the run with status 1 after
    the file has been created: it holds the header and the records of the
    rows before that one. *)
Theorem X12_writer_stops_midway (order : list string) (repr : string → string)
    (sh : Sheet) (w : World)
    (pre : list Row) (row : Row) (post : list Row) (ss : list string) :
  has_header sh = Ok true → sniff sh = Ok tt →
  issubset required_columns (fieldnames sh) = true →
  records sh = pre ++ row :: post →
  Forall (λ r, suffixes_ok r = true) (records sh) →
  samples_of (records sh) ss → NoDup ss →
  Forall (keys_in (out_header sh)) pre →
  ¬ keys_in (out_header sh) row →
  ∃ wrong,
    wrong ≠ [] ∧
    check_samplesheet order repr sh w
    = (Raise (ValueError wrong),
       {| log := log w;
          out_file :=
            Some (out_header sh ::
                  (cells_of (out_header sh) <$>
                   zip_with (λ r s, <["sample" := s +:+ "_T1"]> r)
                     pre (take (length pre) ss))) |}) ∧
    exit_status (check_samplesheet order repr sh w).1 = 1%Z.
Proof.
  intros Hh Hs Hsub Hrows Hok Hss Hnd Hpre Hrow.
  pose proof Hss as Hss0. rewrite Hrows in Hss.
  apply Forall2_app_inv_l in Hss as (ss1 & ss' & Hss1 & Hss' & Heq).
  apply Forall2_cons_inv_l in Hss' as (s & ss2 & Hsrow & Hss2 & ->).
  assert (take (length pre) ss = ss1) as ->.
  { rewrite Heq, (Forall2_length _ _ _ Hss1). by rewrite take_app_length. }
  destruct (dict_to_list_wrong (out_header sh) (renamed "_T1" row s))
    as (wrong & Hne & Hwrong).
  { by rewrite keys_in_renamed. }
  exists wrong. split; [done|].
  assert (check_samplesheet order repr sh w
          = (Raise (ValueError wrong),
             {| log := log w;
                out_file :=
                  Some (out_header sh ::
                        (cells_of (out_header sh) <$>
                         zip_with (renamed "_T1") pre ss1)) |})) as ->; [|done].
  rewrite check_samplesheet_header_ok by done.
  unfold rows_stage. unfold mbind at 1, M_bind at 1.
  rewrite checker_of_init, (validate_rows_accept _ _ ss) by done.
  rewrite (right_id_L ∅ (∪)), app_nil_l.
  unfold mbind at 1, M_bind at 1. unfold call.
  rewrite validate_unique_samples_accept by done.
  unfold open_w. unfold_m. cbn [log out_file modified checker_of].
  rewrite writeheader_ok.
  rewrite Hrows, Heq, zip_with_app by (by eapply Forall2_length).
  simpl.
  rewrite (write_rows_stop _ _ _ _ _ _ wrong); [done| |done].
  by apply keys_in_zip_renamed.
Qed.

Lemma X12_witness :
  ∃ wrong,
    check_samplesheet columns plain_repr
      (sheet_of columns [sample_row "S1" "a.vcf.gz";
                         <["extra" := "x"]> (sample_row "S2" "b.vcf.gz")])
      old_file
    = (Raise (ValueError wrong),
       {| log := [];
          out_file :=
            Some [["sample"; "single_end"; "vcf"; "traits"; "ancestry"];
                  ["S1_T1"; ""; "a.vcf.gz"; "S1_traits-json.json";
                   "S1_ancestry-json.json"]] |}).
Proof.
  assert (keys_in ["sample"; "single_end"; "vcf"; "traits"; "ancestry"]
            (sample_row "S1" "a.vcf.gz")) as Hkeys
    by (apply keys_in_filter; reflexivity).
  assert (¬ keys_in ["sample"; "single_end"; "vcf"; "traits"; "ancestry"]
            (<["extra" := "x"]> (sample_row "S2" "b.vcf.gz"))) as Hextra.
  { intros Hall. specialize (Hall "extra" (ex_intro _ "x" eq_refl)).
    repeat (apply elem_of_cons in Hall as [Hall|Hall]; [discriminate|]).
    by apply elem_of_nil in Hall. }
  assert (NoDup ["S1"; "S2"]) as Hnd.
  { apply NoDup_cons. split.
    - intros [Hin|Hin]%elem_of_cons; [discriminate|by apply elem_of_nil in Hin].
    - apply NoDup_singleton. }
  destruct (X12_writer_stops_midway columns plain_repr
              (sheet_of columns [sample_row "S1" "a.vcf.gz";
                                 <["extra" := "x"]> (sample_row "S2" "b.vcf.gz")])
              old_file [sample_row "S1" "a.vcf.gz"]
              (<["extra" := "x"]> (sample_row "S2" "b.vcf.gz")) []
              ["S1"; "S2"] eq_refl eq_refl eq_refl eq_refl)
    as (wrong & _ & Hrun & _).
  - repeat constructor.
  - repeat constructor.
  - exact Hnd.
  - constructor; [exact Hkeys | constructor].
  - exact Hextra.
  - exists wrong. exact Hrun.
Defined.

(** ** The exit status, and main *)

Lemma validate_rows_raise rows : ∀ i checker w e w',
  validate_rows i rows checker w = (Raise e, w') →
  e = SystemExit 1 ∨ ∃ key, e = KeyError key.
Proof.
  induction rows as [|row rest IH]; intros i checker w e w' H; simpl in H.
  - unfold_m. done.
  - destruct (validate_and_transform_cases checker row)
      as [(s & _ & _ & Hrun)|(e0 & Hrun & [[msg ->]|[key ->]])];
      rewrite Hrun in H.
    + by eapply IH.
    + unfold_m. simpl in H. injection H as <- _. by left.
    + unfold_m. injection H as <- _. right. by exists key.
Qed.

Lemma rename_loop_raise col todo : ∀ seen acc e rows counter,
  rename_loop col seen acc todo = (Raise e, rows, counter) → e = KeyError col.
Proof.
  induction todo as [|row rest IH]; intros seen acc e rows counter H;
    simpl in H; [done|].
  destruct (row !! col) as [s|]; [by eapply IH|]. by injection H as <-.
Qed.

Lemma validate_unique_samples_raise (self self' : RowChecker) e :
  validate_unique_samples self = (Raise e, self') →
  e = AssertionError unique_message ∨ e = KeyError (_sample self).
Proof.
  unfold validate_unique_samples. unfold_m.
  destruct (bool_decide _); simpl; [|intros [= <- _]; by left].
  destruct (rename_loop _ _ _ _) as [[[[]|e0] rows] counter] eqn:Hloop;
    simpl; [done|].
  intros [= <- _]. right. by eapply rename_loop_raise.
Qed.

Lemma write_rows_raise fields rows : ∀ w e w',
  write_rows fields rows w = (Raise e, w') → ∃ wrong, e = ValueError wrong.
Proof.
  induction rows as [|row rest IH]; intros w e w' H; simpl in H.
  - unfold_m. done.
  - unfold writerow at 1, writer_writerow, _dict_to_list in H. unfold_m.
    case_decide; simpl in H.
    + by eapply IH.
    + injection H as <- _. eauto.
Qed.

Lemma rows_stage_raise sh w e w' :
  rows_stage sh w = (Raise e, w') → exit_status (Raise e : res unit) = 1%Z.
Proof.
  unfold rows_stage. unfold mbind at 1, M_bind at 1.
  destruct (validate_rows 0 (records sh) RowChecker_init w)
    as [[checker|e0] w1] eqn:Hrows.
  - unfold mbind at 1, M_bind at 1. unfold call.
    destruct (validate_unique_samples checker) as [[[]|e1] checker'] eqn:Hu.
    + unfold open_w. unfold_m. cbn [log out_file].
      rewrite writeheader_ok.
      intros [wrong ->]%write_rows_raise. done.
    + intros [= <- _].
      by apply validate_unique_samples_raise in Hu as [->| ->].
  - intros [= <- _].
    by apply validate_rows_raise in Hrows as [->|[key ->]].
Qed.

Lemma check_samplesheet_status (order : list string) (repr : string → string)
    (sh : Sheet) (w : World) r w' :
  (∀ code, has_header sh ≠ Raise (SystemExit code)) →
  (∀ code, sniff sh ≠ Raise (SystemExit code)) →
  check_samplesheet order repr sh w = (r, w') →
  r = Ok tt ∨ exit_status r = 1%Z.
Proof.
  intros Hh Hs.
  destruct (has_header sh) as [[]|e] eqn:Hhead.
  - destruct (sniff sh) as [[]|e] eqn:Hsniff.
    + destruct (issubset required_columns (fieldnames sh)) eqn:Hsub.
      * rewrite check_samplesheet_header_ok by done.
        destruct r as [[]|e]; [by left|].
        intros Hrun. right. by eapply rows_stage_raise.
      * rewrite check_samplesheet_header_bad by done.
        intros [= <- _]. by right.
    + rewrite (check_samplesheet_sniff_raise order repr sh w e w).
      * intros [= <- _]. right. destruct e; try done. by destruct (Hs code).
      * unfold sniff_format. unfold_m. by rewrite Hhead, Hsniff.
  - rewrite (check_samplesheet_sniff_raise order repr sh w (SystemExit 1)
               {| log := log w ++ [no_header_message];
                  out_file := out_file w |}).
    + intros [= <- _]. by right.
    + unfold sniff_format. unfold_m. by rewrite Hhead.
  - rewrite (check_samplesheet_sniff_raise order repr sh w e w).
    + intros [= <- _]. right. destruct e; try done. by destruct (Hh code).
    + unfold sniff_format. unfold_m. by rewrite Hhead.
Qed.

(** X13. As long as the sniffer itself does not call [sys.exit], a run of
    [check_samplesheet] has one of two exit statuses: 0 when it returns, and
    1 in every other case, whether the failure is one it logs before
    [sys.exit(1)] or an exception that nothing catches (the AssertionError
    of the uniqueness check, a KeyError, the writer's ValueError, an
    exception of the sniffer). *)
Theorem X13_exit_status (order : list string) (repr : string → string)
    (sh : Sheet) (w : World) :
  (∀ code, has_header sh ≠ Raise (SystemExit code)) →
  (∀ code, sniff sh ≠ Raise (SystemExit code)) →
  let r := (check_samplesheet order repr sh w).1 in
  (r = Ok tt ∧ exit_status r = 0%Z) ∨ (r ≠ Ok tt ∧ exit_status r = 1%Z).
Proof.
  intros Hh Hs r. subst r.
  destruct (check_samplesheet order repr sh w) as [r w'] eqn:Hrun.
  destruct (check_samplesheet_status order repr sh w r w' Hh Hs Hrun)
    as [->|Hstatus]; simpl.
  - by left.
  - right. split; [|done]. intros ->. simpl in Hstatus. lia.
Qed.

Lemma X13_witness :
  exit_status
    (check_samplesheet columns plain_repr
       {| has_header := Raise (csv_Error "Could not determine delimiter");
          sniff := Ok tt; fieldnames := columns; records := [] |} no_file).1
  = 1%Z.
Proof.
  destruct (X13_exit_status columns plain_repr
              {| has_header := Raise (csv_Error "Could not determine delimiter");
                 sniff := Ok tt; fieldnames := columns; records := [] |}
              no_file) as [[Hok _]|[_ Hstatus]].
  - intros code Hcode. discriminate Hcode.
  - intros code Hcode. discriminate Hcode.
  - discriminate Hok.
  - exact Hstatus.
Defined.

(** X14. [main]: when the input path is no regular file, the process ends
    with status 2, the parent directory of the output is not made, the
    output is not touched, and the one message is emitted unless the log
    level is CRITICAL; when it is a file, the parent directory of the output
    is made before the sheet is looked at, so also when validation fails,
    and the rest is the run of [check_samplesheet], with status 0 or 1. *)
Theorem X14_main (order : list string) (repr : string → string)
    (args : Args) (files : Files) (p : Process) :
  (input files = None →
   (main order repr args files p).1 = Raise (SystemExit 2) ∧
   exit_status (main order repr args files p).1 = 2%Z ∧
   world (main order repr args files p).2 = world p ∧
   parent_exists (main order repr args files p).2 = parent_exists p ∧
   (log_level args = CRITICAL →
    errors (main order repr args files p).2 = errors p) ∧
   (log_level args ≠ CRITICAL →
    errors (main order repr args files p).2
    = errors p ++ [not_found_message (file_in args)])) ∧
  (∀ sh, input files = Some sh →
   (main order repr args files p).1
   = (check_samplesheet order repr sh (world p)).1 ∧
   world (main order repr args files p).2
   = (check_samplesheet order repr sh (world p)).2 ∧
   parent_exists (main order repr args files p).2 = true ∧
   errors (main order repr args files p).2 = errors p ∧
   ((∀ code, has_header sh ≠ Raise (SystemExit code)) →
    (∀ code, sniff sh ≠ Raise (SystemExit code)) →
    exit_status (main order repr args files p).1 = 0%Z ∨
    exit_status (main order repr args files p).1 = 1%Z)).
Proof.
  split.
  - intros Hnone. unfold main. rewrite Hnone.
    unfold logger_error. unfold_m. simpl.
    split; [done|]. split; [done|].
    destruct (log_level args); simpl; repeat split; done.
  - intros sh Hsome. unfold main. rewrite Hsome.
    unfold mkdir_parent, in_world. unfold_m. simpl.
    destruct (check_samplesheet order repr sh (world p)) as [r w'] eqn:Hrun.
    simpl. repeat split.
    intros Hh Hs.
    destruct (check_samplesheet_status order repr sh (world p) r w' Hh Hs Hrun)
      as [->|Hstatus]; [by left | by right].
Qed.

Lemma X14_witness :
  exit_status
    (main columns plain_repr
       {| file_in := "sheet.csv"; file_out := "out/sheet.valid.csv";
          log_level := WARNING |}
       {| input := None |}
       {| world := old_file; errors := []; parent_exists := false |}).1
  = 2%Z ∧
  errors
    (main columns plain_repr
       {| file_in := "sheet.csv"; file_out := "out/sheet.valid.csv";
          log_level := WARNING |}
       {| input := None |}
       {| world := old_file; errors := []; parent_exists := false |}).2
  = ["The given input file sheet.csv was not found!"] ∧
  parent_exists
    (main columns plain_repr
       {| file_in := "sheet.csv"; file_out := "out/sheet.valid.csv";
          log_level := CRITICAL |}
       {| input := Some (sheet_of columns [sample_row "S1" "S1.vcf"]) |}
       {| world := old_file; errors := []; parent_exists := false |}).2
  = true.
Proof.
  destruct (X14_main columns plain_repr
              {| file_in := "sheet.csv"; file_out := "out/sheet.valid.csv";
                 log_level := WARNING |}
              {| input := None |}
              {| world := old_file; errors := []; parent_exists := false |})
    as [Hmissing _].
  destruct (Hmissing eq_refl) as (_ & Hstatus & _ & _ & _ & Herrors).
  split; [exact Hstatus|]. split.
  - apply Herrors. discriminate.
  - destruct (X14_main columns plain_repr
                {| file_in := "sheet.csv"; file_out := "out/sheet.valid.csv";
                   log_level := CRITICAL |}
                {| input := Some (sheet_of columns [sample_row "S1" "S1.vcf"]) |}
                {| world := old_file; errors := []; parent_exists := false |})
      as [_ Hfile].
    destruct (Hfile _ eq_refl) as (_ & _ & Hparent & _).
    exact Hparent.
Defined.
